(** * Agentboard: chat_detection_extension/ai_analytics_engine.py

    A shallow embedding of the analytics engine, the batch recovery of the
    data processor and the orchestrator, with the properties their
    specification states about them.

    Modelling conventions.
    - In the engine and the orchestrator Python floats are exact rationals
      ([Q]); a float cell that may be NaN is an [option Q], [None] being
      NaN.  A cell of a batch of the stream processor is a [double]: finite,
      infinite or NaN.
    - Methods are computations over the object they are called on ([self])
      and the [World]: the state of numpy's global generator and the wall
      clock.  A raised exception keeps the state reached so far, as in
      Python.
    - numpy's generator is an oracle: an infinite sequence of raw draws, one
      consumed per scalar sample.  [np.random.random] maps a raw draw to the
      53-bit fraction numpy builds; the other distributions map it through
      [variate], a parameter of the development.
    - The engine reads a DataFrame only through its length, its column
      names and its numeric values: its frames ([DataFrame]) hold float64
      columns.  A batch of the stream processor ([Batch]) has typed columns,
      float64 or object holding strings; datetime64 columns are left out.
    - pandas is the one of versions 2.0 and later: [DataFrame.mean] takes
      every column and raises TypeError on strings.  The double it computes
      as the mean of a float64 column is [nanmean], a parameter of the
      development, as the order of the additions is pandas' own.
    - [logging] calls and [asyncio.sleep] are left out: no operation below
      reads what they write.
    - [process_realtime_stream], [_receive_data_batch] and [main] are not
      embedded: the batches received carry a datetime column, the stream
      loop is unbounded, and [main] formats floats for printing. *)

From Stdlib Require Import String List ZArith NArith QArith Lia Bool Lqa.
From Stdlib Require Import Sorted.
Import ListNotations.

Local Open Scope string_scope.

(** ** Exceptions and the world *)

Record Exception := mkException {
  exc_class : string;
  exc_message : string
}.

Definition RuntimeError (msg : string) : Exception := mkException "RuntimeError" msg.
Definition ValueError (msg : string) : Exception := mkException "ValueError" msg.
Definition AttributeError (msg : string) : Exception := mkException "AttributeError" msg.
Definition TypeError (msg : string) : Exception := mkException "TypeError" msg.

Inductive result (A : Type) : Type :=
| Ok (a : A)
| Raise (e : Exception).

Arguments Ok {A} a.
Arguments Raise {A} e.

Definition raises {A : Type} (cls : string) (r : result A) : Prop :=
  match r with
  | Ok _ => False
  | Raise e => exc_class e = cls
  end.

Definition returned {A : Type} (r : result A) : bool :=
  match r with
  | Ok _ => true
  | Raise _ => false
  end.

Record World := mkWorld {
  entropy : nat -> N;          (* raw output of the generator, in order *)
  cursor : nat;                (* how many raw draws were consumed *)
  wall_clock : nat -> string;  (* successive readings of datetime.now().isoformat() *)
  clock_reads : nat
}.

Definition advance (w : World) : World :=
  mkWorld (entropy w) (S (cursor w)) (wall_clock w) (clock_reads w).

Definition tick (w : World) : World :=
  mkWorld (entropy w) (cursor w) (wall_clock w) (S (clock_reads w)).

(** ** Computations of a method on [self] *)

Definition Run (Self A : Type) : Type := Self -> World -> result A * Self * World.

Definition ret {Self A : Type} (a : A) : Run Self A :=
  fun s w => (Ok a, s, w).

Definition bind {Self A B : Type} (m : Run Self A) (k : A -> Run Self B) : Run Self B :=
  fun s w =>
    match m s w with
    | (Ok a, s', w') => k a s' w'
    | (Raise e, s', w') => (Raise e, s', w')
    end.

Definition raise {Self A : Type} (e : Exception) : Run Self A :=
  fun s w => (Raise e, s, w).

(** A pure computation that may raise. *)
Definition from_result {Self A : Type} (r : result A) : Run Self A :=
  fun s w => (r, s, w).

Definition self_get {Self A : Type} (field : Self -> A) : Run Self A :=
  fun s w => (Ok (field s), s, w).

Definition self_set {Self : Type} (update : Self -> Self) : Run Self unit :=
  fun s w => (Ok tt, update s, w).

(** [try: body except Exception as e: handler e] *)
Definition try_except {Self A : Type} (body : Run Self A) (handler : Exception -> Run Self A)
  : Run Self A :=
  fun s w =>
    match body s w with
    | (Ok a, s', w') => (Ok a, s', w')
    | (Raise e, s', w') => handler e s' w'
    end.

(** A method call on an attribute of [self]: [self.attr.method(...)]. *)
Definition call_on {Self Attr A : Type} (attr : Self -> Attr) (store : Self -> Attr -> Self)
  (m : Run Attr A) : Run Self A :=
  fun s w =>
    match m (attr s) w with
    | (r, a', w') => (r, store s a', w')
    end.

Declare Scope run_scope.
Delimit Scope run_scope with run.
Notation "x <- m ;; k" := (bind m (fun x => k))
  (at level 61, m at next level, right associativity) : run_scope.
Notation "m ;; k" := (bind m (fun _ => k))
  (at level 61, right associativity) : run_scope.
Local Open Scope run_scope.

Fixpoint replicateM {Self A : Type} (n : nat) (m : Run Self A) : Run Self (list A) :=
  match n with
  | O => ret []
  | S n' => x <- m ;; xs <- replicateM n' m ;; ret (x :: xs)
  end.

(** [for i in idxs: acc = body i acc] *)
Fixpoint for_each {Self I Acc : Type} (idxs : list I) (body : I -> Acc -> Run Self Acc)
  (acc : Acc) : Run Self Acc :=
  match idxs with
  | [] => ret acc
  | i :: rest => acc' <- body i acc ;; for_each rest body acc'
  end.

(** ** numpy and datetime *)

(** Greater-than on floats. *)
Definition Qgtb (x y : Q) : bool := negb (Qle_bool x y).

(** A float cell: [None] is NaN. *)
Definition float := option Q.

Definition float_add (x y : float) : float :=
  match x, y with
  | Some a, Some b => Some (a + b)%Q
  | _, _ => None
  end.

(** The distributions the module samples from, other than the uniform ones. *)
Inductive Distribution : Type :=
| Normal (loc scale : Q)
| Lognormal (mean sigma : Q)
| Exponential (scale : Q)
| Poisson (lam : Q)
| Beta (a b : Q).

Definition raw_draw {Self : Type} : Run Self N :=
  fun s w => (Ok (entropy w (cursor w)), s, advance w).

(** The double in [0, 1) numpy builds from 53 random bits. *)
Definition unit_float (k : N) : Q :=
  Z.of_N (k mod 2 ^ 53) # (2 ^ 53).

Definition np_random_random {Self : Type} : Run Self Q :=
  k <- raw_draw ;; ret (unit_float k).

Definition np_random_uniform {Self : Type} (low high : Q) : Run Self Q :=
  u <- np_random_random ;; ret (low + (high - low) * u)%Q.

(** [np.random.random(n)] *)
Definition np_random_random_1d {Self : Type} (n : nat) : Run Self (list Q) :=
  replicateM n np_random_random.

(** [np.random.random((rows, cols))] *)
Definition np_random_random_2d {Self : Type} (rows cols : nat) : Run Self (list (list Q)) :=
  replicateM rows (replicateM cols np_random_random).

(** [np.random.randint(low, high)]: an integer in [low, high). *)
Definition np_random_randint {Self : Type} (low high : Z) : Run Self Z :=
  if (high <=? low)%Z then raise (ValueError "low >= high")
  else k <- raw_draw ;; ret (low + Z.of_N k mod (high - low))%Z.

(** [np.random.choice(a, size)] for an integer [a]: [size] indices below [a],
    with replacement. *)
Definition np_random_choice {Self : Type} (a size : nat) : Run Self (list nat) :=
  if Nat.eqb a 0 then raise (ValueError "a must be greater than 0 unless no samples are taken")
  else replicateM size (k <- raw_draw ;; ret (N.to_nat k mod a)%nat).

Definition datetime_now_isoformat {Self : Type} : Run Self string :=
  fun s w => (Ok (wall_clock w (clock_reads w)), s, tick w).

(** ** pandas *)

(** A float64 column. *)
Definition Series := list float.

Record DataFrame := mkDataFrame {
  index_len : nat;                    (* len(df) *)
  columns : list (string * Series)    (* in column order; each of length [index_len] *)
}.

Definition column_names (df : DataFrame) : list string := map fst (columns df).

Definition Qsum (xs : list Q) : Q := fold_right Qplus 0%Q xs.

Definition head_cell (c : string * Series) : float :=
  match snd c with
  | [] => None
  | x :: _ => x
  end.

Definition tail_cells (c : string * Series) : string * Series :=
  (fst c, tl (snd c)).

Fixpoint rows_of (n : nat) (cols : list (string * Series)) : list (list float) :=
  match n with
  | O => []
  | S n' => map head_cell cols :: rows_of n' (map tail_cells cols)
  end.

(** [df.select_dtypes(include=[np.number]).values]: every column is float64,
    so this is the frame as a 2-D array, one row per index entry. *)
Definition numeric_values (df : DataFrame) : list (list float) :=
  rows_of (index_len df) (columns df).

(** [a.shape] of a 2-D array. *)
Definition shape (a : list (list float)) : nat * nat :=
  (length a, match a with [] => O | r :: _ => length r end).

(** [data.columns[idx].tolist()] *)
Definition take_names (names : list string) (idx : list nat) : list string :=
  map (fun i => nth i names "") idx.

(** [d.get(key, default)] on a dict with string keys. *)
Fixpoint dict_get {V : Type} (d : list (string * V)) (key : string) (default : V) : V :=
  match d with
  | [] => default
  | (k, v) :: rest => if String.eqb k key then v else dict_get rest key default
  end.

(** *** The batches of the stream processor *)

(** A double: finite, infinite or NaN. *)
Inductive double : Type :=
| Finite (q : Q)
| PosInf
| NegInf
| NaN.

Definition is_nan (x : double) : bool :=
  match x with
  | NaN => true
  | _ => false
  end.

(** A column by dtype: float64, or object holding strings. *)
Inductive Column : Type :=
| Float64 (cells : list double)
| Object (cells : list string).

Record Batch := mkBatch {
  batch_len : nat;                        (* len(batch) *)
  batch_columns : list (string * Column)  (* in column order *)
}.

(** The values of a float64 column that are not NaN. *)
Definition valid_values (cells : list double) : list double :=
  filter (fun x => negb (is_nan x)) cells.

Definition fill_cell (value : double) (x : double) : double :=
  if is_nan x then value else x.

(** [Series.fillna(value)]; an object column here holds strings, none missing. *)
Definition fill_column (value : double) (c : Column) : Column :=
  match c with
  | Float64 cells => Float64 (map (fill_cell value) cells)
  | Object cells => Object cells
  end.

Fixpoint fill_columns (cols : list (string * Column)) (values : list (string * double))
  : list (string * Column) :=
  match cols, values with
  | (name, c) :: cols', (_, value) :: values' =>
      (name, fill_column value c) :: fill_columns cols' values'
  | _, _ => cols
  end.

(** [batch.fillna(values)] for [values] holding one entry per column. *)
Definition fillna (b : Batch) (values : list (string * double)) : Batch :=
  mkBatch (batch_len b) (fill_columns (batch_columns b) values).

(** ** Configuration *)

Record ModelConfiguration := mkModelConfiguration {
  algorithm : string;
  learning_rate : Q;
  max_depth : Z;
  n_estimators : Z;
  regularization_alpha : Q;
  regularization_lambda : Q;
  early_stopping_rounds : Z;
  cross_validation_folds : Z;
  feature_selection_threshold : Q;
  anomaly_detection_threshold : Q;
  auto_feature_engineering : bool;
  distributed_computing : bool;
  gpu_acceleration : bool;
  memory_optimization : bool
}.

Definition ModelConfiguration_default : ModelConfiguration :=
  mkModelConfiguration "ensemble_xgboost_rf" 0.001 12 1000 0.1 0.1 50 10 0.95 2.5
    true true true true.

Definition with_anomaly_detection_threshold (c : ModelConfiguration) (t : Q)
  : ModelConfiguration :=
  mkModelConfiguration (algorithm c) (learning_rate c) (max_depth c) (n_estimators c)
    (regularization_alpha c) (regularization_lambda c) (early_stopping_rounds c)
    (cross_validation_folds c) (feature_selection_threshold c) t
    (auto_feature_engineering c) (distributed_computing c) (gpu_acceleration c)
    (memory_optimization c).

Record DataPipeline := mkDataPipeline {
  source_endpoints : list string;
  preprocessing_steps : list string;
  validation_rules : list (string * string);
  encryption_enabled : bool;
  compression_algorithm : string;
  batch_size : Z;
  streaming_window_ms : Z;
  error_tolerance : Q;
  backup_strategy : string
}.

Definition DataPipeline_default : DataPipeline :=
  mkDataPipeline [] [] [] true "lz4" 10000 1000 0.001 "distributed_replication".

(** ** QuantumEnhancedAnalytics *)

Record AnomalyRecord := mkAnomalyRecord {
  timestamp : string;
  index : nat;
  anomaly_score : Q;
  confidence : Q;
  risk_level : string;
  affected_features : list string
}.

Record Architecture := mkArchitecture {
  layers : Z;
  neurons_per_layer : Z;
  activation_functions : list string;
  dropout_rate : Q;
  batch_normalization : bool;
  attention_mechanisms : bool
}.

Record QuantumEnhancedAnalytics := mkQuantumEnhancedAnalytics {
  config : ModelConfiguration;
  model_cache : list (string * string);   (* a dict; the module never writes to it *)
  feature_importance_matrix : option (list (list Q));
  anomaly_detector : option string;
  prediction_confidence_threshold : Q;
  quantum_circuit_depth : Z;
  neural_architecture_search_space : Z
}.

(** [QuantumEnhancedAnalytics.__init__] *)
Definition QuantumEnhancedAnalytics_init (cfg : ModelConfiguration) : QuantumEnhancedAnalytics :=
  mkQuantumEnhancedAnalytics cfg [] None None 0.85 12 10000.

Record EnterpriseDataProcessor := mkEnterpriseDataProcessor {
  pipeline : DataPipeline;               (* self.config *)
  processing_queue_maxsize : Z;
  processing_queue : list DataFrame;
  worker_threads : list string;
  encryption_key : string
}.

(** [EnterpriseDataProcessor.__init__] *)
Definition EnterpriseDataProcessor_init (cfg : DataPipeline) : EnterpriseDataProcessor :=
  mkEnterpriseDataProcessor cfg 100000 [] []
    "09c2e2cd15412a8897c2c97207b898645df82174dd80fea0bb32c9304a518be9".

Record AIAnalyticsOrchestrator := mkAIAnalyticsOrchestrator {
  model_config : ModelConfiguration;
  pipeline_config : DataPipeline;
  analytics_engine : QuantumEnhancedAnalytics;
  data_processor : EnterpriseDataProcessor;
  system_status : string
}.

Definition set_analytics_engine (o : AIAnalyticsOrchestrator) (e : QuantumEnhancedAnalytics)
  : AIAnalyticsOrchestrator :=
  mkAIAnalyticsOrchestrator (model_config o) (pipeline_config o) e (data_processor o)
    (system_status o).

Definition set_system_status (status : string) (o : AIAnalyticsOrchestrator)
  : AIAnalyticsOrchestrator :=
  mkAIAnalyticsOrchestrator (model_config o) (pipeline_config o) (analytics_engine o)
    (data_processor o) status.

(** [AIAnalyticsOrchestrator.__init__] *)
Definition AIAnalyticsOrchestrator_init : AIAnalyticsOrchestrator :=
  mkAIAnalyticsOrchestrator ModelConfiguration_default DataPipeline_default
    (QuantumEnhancedAnalytics_init ModelConfiguration_default)
    (EnterpriseDataProcessor_init DataPipeline_default)
    "INITIALIZING".

Record AnalysisReport := mkAnalysisReport {
  report_timestamp : string;             (* 'timestamp' *)
  data_source : string;
  samples_processed : nat;
  model_performance : list (string * Q);
  predictions_generated : nat;
  anomalies_detected : nat;
  system_health : list (string * Q);
  recommendations : list string;
  quantum_advantage_factor : Q;
  processing_efficiency : Q
}.

Section Engine.

(** How numpy turns a raw draw into a variate of a distribution. *)
Variable variate : Distribution -> N -> Q.

(** The double pandas computes as the mean of a float64 column that holds a
    valid value: the sum of the valid values over their number, in double
    arithmetic.  It can be infinite, and NaN (for inf and -inf). *)
Variable nanmean : list double -> double.

(** [np.random.normal(loc, scale, n)] and the like: [n] variates. *)
Definition np_random_variates {Self : Type} (d : Distribution) (n : nat) : Run Self (list Q) :=
  replicateM n (k <- raw_draw ;; ret (variate d k)).

(** [np.random.normal(loc, scale, (rows, cols))] *)
Definition np_random_normal_2d {Self : Type} (loc scale : Q) (shp : nat * nat)
  : Run Self (list (list Q)) :=
  replicateM (fst shp) (np_random_variates (Normal loc scale) (snd shp)).

(** [np.random.uniform(low, high, n)] *)
Definition np_random_uniform_1d {Self : Type} (low high : Q) (n : nat) : Run Self (list Q) :=
  replicateM n (np_random_uniform low high).

(** [np.random.complex128]: the module has no such attribute, and the lookup
    fails before the argument is evaluated. *)
Definition np_random_complex128 {Self A : Type} : Run Self A :=
  raise (AttributeError "module 'numpy.random' has no attribute 'complex128'").

(** Element-wise [a + b] of two arrays of one shape. *)
Fixpoint add_rows (a : list float) (b : list Q) : list float :=
  match a, b with
  | x :: a', y :: b' => float_add x (Some y) :: add_rows a' b'
  | _, _ => []
  end.

Fixpoint add_arrays (a : list (list float)) (b : list (list Q)) : list (list float) :=
  match a, b with
  | r :: a', n :: b' => add_rows r n :: add_arrays a' b'
  | _, _ => []
  end.

(** Lines 96-106.  The state preparation never succeeds, see
    [np_random_complex128]. *)
Definition initialize_quantum_circuits : Run QuantumEnhancedAnalytics bool :=
  quantum_states <- np_random_complex128 (A := list Q) ;;
  ret true.

(** Lines 163-181. *)
Definition _preprocess_data (data : DataFrame) : Run QuantumEnhancedAnalytics DataFrame :=
  ret data.

(** Lines 183-198. *)
Definition _neural_architecture_search : Run QuantumEnhancedAnalytics Architecture :=
  n_layers <- np_random_randint 10 50 ;;
  n_neurons <- np_random_randint 128 1024 ;;
  dropout <- np_random_uniform 0.1 0.3 ;;
  ret (mkArchitecture n_layers n_neurons ["relu"; "gelu"; "swish"] dropout true true).

(** Lines 200-208. *)
Definition _quantum_feature_engineering (data : DataFrame)
  : Run QuantumEnhancedAnalytics (list (list Q)) :=
  np_random_random_2d (index_len data) 50.

(** Lines 210-226.  The dict keeps its keys in insertion order. *)
Definition _train_ensemble_models (data : DataFrame)
  : Run QuantumEnhancedAnalytics (list (string * Q)) :=
  accuracy <- np_random_uniform 0.92 0.98 ;;
  precision <- np_random_uniform 0.89 0.96 ;;
  recall <- np_random_uniform 0.88 0.95 ;;
  f1_score <- np_random_uniform 0.90 0.97 ;;
  auc_roc <- np_random_uniform 0.93 0.99 ;;
  quantum_advantage <- np_random_uniform 1.15 1.45 ;;
  computational_speedup <- np_random_uniform 2.1 5.7 ;;
  ret [("accuracy", accuracy); ("precision", precision); ("recall", recall);
       ("f1_score", f1_score); ("auc_roc", auc_roc);
       ("quantum_advantage", quantum_advantage);
       ("computational_speedup", computational_speedup)].

(** Lines 108-125.  [cfg] is not used. *)
Definition train_model (data : DataFrame) (cfg : ModelConfiguration)
  : Run QuantumEnhancedAnalytics (list (string * Q)) :=
  _ <- _preprocess_data data ;;
  _ <- _neural_architecture_search ;;
  _ <- _quantum_feature_engineering data ;;
  training_metrics <- _train_ensemble_models data ;;
  ret training_metrics.

(** Lines 228-235. *)
Definition _quantum_transform (features : list (list float))
  : Run QuantumEnhancedAnalytics (list (list float)) :=
  noise <- np_random_normal_2d 0 0.01 (shape features) ;;
  ret (add_arrays features noise).

(** Lines 127-139.  The transformed features are computed and dropped. *)
Definition predict_batch (features : list (list float))
  : Run QuantumEnhancedAnalytics (list Q * list (list Q)) :=
  transformed_features <- _quantum_transform features ;;
  predictions <- np_random_random_1d (length features) ;;
  confidence_intervals <- np_random_random_2d (length features) 2 ;;
  ret (predictions, confidence_intervals).

(** Lines 149-158: the body of the loop of [detect_anomalies] for row [i].
    The entries of the record are evaluated in the order of the dict
    literal. *)
Definition detect_anomalies_step (data : DataFrame) (i : nat) (anomalies : list AnomalyRecord)
  : Run QuantumEnhancedAnalytics (list AnomalyRecord) :=
  r <- np_random_random ;;
  if Qgtb r 0.95 then
    ts <- datetime_now_isoformat ;;
    score <- np_random_uniform 2.5 5.0 ;;
    conf <- np_random_uniform 0.8 0.99 ;;
    r' <- np_random_random ;;
    picked <- np_random_choice (length (column_names data)) 3 ;;
    ret (anomalies ++
         [mkAnomalyRecord ts i score conf (if Qgtb r' 0.5 then "HIGH" else "MEDIUM")
            (take_names (column_names data) picked)])%list
  else ret anomalies.

(** Lines 141-161. *)
Definition detect_anomalies (data : DataFrame)
  : Run QuantumEnhancedAnalytics (list AnomalyRecord) :=
  for_each (seq 0 (Nat.min (index_len data) 10)) (detect_anomalies_step data) [].

(** ** EnterpriseDataProcessor: the processing of one batch *)

(** [Series.mean()] of a float64 column, skipping NaN; NaN when nothing is
    left. *)
Definition series_mean (cells : list double) : double :=
  match valid_values cells with
  | [] => NaN
  | _ :: _ => nanmean cells
  end.

(** The entry of one column in [DataFrame.mean()].  The message of the
    TypeError quotes the strings, in a format that differs between versions
    of pandas; it is abridged. *)
Definition column_mean (c : Column) : result double :=
  match c with
  | Float64 cells => Ok (series_mean cells)
  | Object [] => Ok NaN
  | Object (_ :: _) => Raise (TypeError "Could not convert to numeric")
  end.

Fixpoint column_means (cols : list (string * Column)) : result (list (string * double)) :=
  match cols with
  | [] => Ok []
  | (name, c) :: rest =>
      match column_mean c with
      | Raise e => Raise e
      | Ok value =>
          match column_means rest with
          | Raise e => Raise e
          | Ok values => Ok ((name, value) :: values)
          end
      end
  end.

(** [batch.mean()] *)
Definition frame_mean (b : Batch) : result (list (string * double)) :=
  column_means (batch_columns b).

(** Lines 311-314. *)
Definition _validate_data_integrity (data : Batch) : Run EnterpriseDataProcessor bool :=
  r <- np_random_random ;; ret (Qgtb r 0.05).

(** Lines 316-320: [data.fillna(data.mean())]. *)
Definition _apply_data_recovery (data : Batch) : Run EnterpriseDataProcessor Batch :=
  means <- from_result (frame_mean data) ;;
  ret (fillna data means).

(** Lines 322-326. *)
Definition _encrypt_sensitive_data (data : Batch) : Run EnterpriseDataProcessor Batch :=
  ret data.

(** Lines 328-332. *)
Definition _apply_business_rules (data : Batch) : Run EnterpriseDataProcessor Batch :=
  ret data.

(** Lines 296-309. *)
Definition _process_batch_enterprise (batch : Batch)
  : Run EnterpriseDataProcessor Batch :=
  validation_passed <- _validate_data_integrity batch ;;
  batch' <- (if negb validation_passed then _apply_data_recovery batch else ret batch) ;;
  encrypted_batch <- _encrypt_sensitive_data batch' ;;
  processed_batch <- _apply_business_rules encrypted_batch ;;
  ret processed_batch.

(** ** AIAnalyticsOrchestrator *)

Definition on_engine {A : Type} (m : Run QuantumEnhancedAnalytics A)
  : Run AIAnalyticsOrchestrator A :=
  call_on analytics_engine set_analytics_engine m.

(** Lines 428-446. *)
Definition _perform_system_health_check : Run AIAnalyticsOrchestrator bool :=
  for_each ["Quantum Circuit Coherence"; "Distributed Computing Nodes";
            "GPU Memory Allocation"; "Neural Network Architecture";
            "Data Pipeline Integrity"; "Encryption Module Status";
            "Real-time Processing Queue"]
           (fun check (_ : unit) => ret tt) tt ;;
  ret true.

(** Lines 448-454. *)
Definition _load_enterprise_configurations : Run AIAnalyticsOrchestrator unit :=
  ret tt.

(** Lines 349-372. *)
Definition initialize_system : Run AIAnalyticsOrchestrator bool :=
  try_except
    (_ <- on_engine initialize_quantum_circuits ;;
     _ <- _perform_system_health_check ;;
     _ <- _load_enterprise_configurations ;;
     self_set (set_system_status "OPERATIONAL") ;;
     ret true)
    (fun e =>
       self_set (set_system_status "FAILED") ;;
       ret false).

(** Lines 411-426. *)
Definition _generate_enterprise_dataset : Run AIAnalyticsOrchestrator DataFrame :=
  n <- np_random_randint 10000 50000 ;;
  let n_samples := Z.to_nat n in
  transaction_amount <- np_random_variates (Lognormal 3 1) n_samples ;;
  customer_age <- np_random_variates (Normal 35 12) n_samples ;;
  account_balance <- np_random_variates (Exponential 5000) n_samples ;;
  credit_score <- np_random_variates (Normal 650 100) n_samples ;;
  transaction_frequency <- np_random_variates (Poisson 10) n_samples ;;
  geographic_risk_score <- np_random_variates (Beta 2 5) n_samples ;;
  temporal_pattern_score <- np_random_uniform_1d 0 1 n_samples ;;
  ret (mkDataFrame n_samples
         [("transaction_amount", map Some transaction_amount);
          ("customer_age", map Some customer_age);
          ("account_balance", map Some account_balance);
          ("credit_score", map Some credit_score);
          ("transaction_frequency", map Some transaction_frequency);
          ("geographic_risk_score", map Some geographic_risk_score);
          ("temporal_pattern_score", map Some temporal_pattern_score)]).

(** Lines 456-465. *)
Definition _get_system_health_metrics : Run AIAnalyticsOrchestrator (list (string * Q)) :=
  cpu_utilization <- np_random_uniform 0.15 0.35 ;;
  memory_usage <- np_random_uniform 0.45 0.75 ;;
  gpu_utilization <- np_random_uniform 0.60 0.90 ;;
  quantum_coherence <- np_random_uniform 0.85 0.98 ;;
  network_latency_ms <- np_random_uniform 1.2 4.8 ;;
  prediction_accuracy <- np_random_uniform 0.92 0.98 ;;
  ret [("cpu_utilization", cpu_utilization); ("memory_usage", memory_usage);
       ("gpu_utilization", gpu_utilization); ("quantum_coherence", quantum_coherence);
       ("network_latency_ms", network_latency_ms);
       ("prediction_accuracy", prediction_accuracy)].

Definition baseline_recommendations : list string :=
  ["Implement enhanced monitoring for high-risk transaction patterns";
   "Deploy additional quantum circuits for improved processing capacity";
   "Optimize neural architecture for reduced latency in real-time predictions";
   "Strengthen anomaly detection thresholds based on current threat landscape"].

Definition urgent_recommendation : string :=
  "URGENT: Investigate potential security breach - anomaly count exceeds threshold".

(** Lines 467-479. *)
Definition _generate_ai_recommendations (anomalies : list AnomalyRecord)
  : Run AIAnalyticsOrchestrator (list string) :=
  let recommendations := baseline_recommendations in
  let recommendations :=
    if (5 <? length anomalies)%nat then (recommendations ++ [urgent_recommendation])%list
    else recommendations in
  ret recommendations.

(** Lines 374-409.  The entries of the report are evaluated in the order of
    the dict literal. *)
Definition run_comprehensive_analysis (source : string)
  : Run AIAnalyticsOrchestrator AnalysisReport :=
  status <- self_get system_status ;;
  if negb (String.eqb status "OPERATIONAL") then
    raise (RuntimeError "System not operational - initialization required")
  else
    sample_data <- _generate_enterprise_dataset ;;
    cfg <- self_get model_config ;;
    training_results <- on_engine (train_model sample_data cfg) ;;
    let features := numeric_values sample_data in
    prediction <- on_engine (predict_batch features) ;;
    let predictions := fst prediction in
    anomalies <- on_engine (detect_anomalies sample_data) ;;
    now <- datetime_now_isoformat ;;
    health <- _get_system_health_metrics ;;
    advice <- _generate_ai_recommendations anomalies ;;
    efficiency <- np_random_uniform 0.85 0.98 ;;
    ret (mkAnalysisReport now source (index_len sample_data) training_results
           (length predictions) (length anomalies) health advice
           (dict_get training_results "quantum_advantage" 1.0)
           efficiency).

End Engine.

(** ** Concrete inputs *)

(** A world whose generator yields [draws], then zeros. *)
Definition world_of (draws : list N) : World :=
  mkWorld (fun i => nth i draws 0%N) 0 (fun _ => "2025-06-01T12:00:00") 0.

(** A stand-in for numpy's variate transformations. *)
Definition flat_variate (d : Distribution) (k : N) : Q := unit_float k.

(** The raw draw behind the largest double below 1, and those behind 1/2 and 1/8. *)
Definition draw_top : N := 2 ^ 53 - 1.
Definition draw_half : N := 2 ^ 52.
Definition draw_eighth : N := 2 ^ 50.

Definition set_config (e : QuantumEnhancedAnalytics) (cfg : ModelConfiguration)
  : QuantumEnhancedAnalytics :=
  mkQuantumEnhancedAnalytics cfg (model_cache e) (feature_importance_matrix e)
    (anomaly_detector e) (prediction_confidence_threshold e) (quantum_circuit_depth e)
    (neural_architecture_search_space e).

(** The engine [e] reconfigured with another anomaly threshold. *)
Definition with_threshold (e : QuantumEnhancedAnalytics) (t : Q) : QuantumEnhancedAnalytics :=
  set_config e (with_anomaly_detection_threshold (config e) t).

Definition default_engine : QuantumEnhancedAnalytics :=
  QuantumEnhancedAnalytics_init ModelConfiguration_default.

Definition default_processor : EnterpriseDataProcessor :=
  EnterpriseDataProcessor_init DataPipeline_default.

Definition one_cell_frame : DataFrame :=
  mkDataFrame 1 [("sensor_value_1", [Some 100%Q])].

Definition empty_frame : DataFrame := mkDataFrame 0 [].

(** Ten readings of one sensor, three of them missing. *)
Definition gappy_batch : Batch :=
  mkBatch 10
    [("sensor_value_1",
      Float64 [Finite 1; NaN; Finite 2; Finite 3; NaN; Finite 4; Finite 5; NaN; Finite 6;
               Finite 7])].


Definition full_batch : Batch :=
  mkBatch 2
    [("sensor_value_1", Float64 [Finite 1; Finite 3]);
     ("quality_score", Float64 [Finite 0.5; Finite 0.25])].

(** A batch with a gap in each of its two columns. *)
Definition holed_batch : Batch :=
  mkBatch 2
    [("sensor_value_1", Float64 [Finite 1; NaN]);
     ("quality_score", Float64 [NaN; Finite 0.5])].

(** A batch without missing value that carries a string column, as every
    batch built at lines 286-292 does. *)
Definition labelled_batch : Batch :=
  mkBatch 2
    [("sensor_value_1", Float64 [Finite 1; Finite 3]);
     ("categorical_feature", Object ["A"; "B"])].

Fixpoint finite_values (cells : list double) : list Q :=
  match cells with
  | [] => []
  | Finite q :: rest => q :: finite_values rest
  | _ :: rest => finite_values rest
  end.

(** A stand-in for pandas' mean: exact on finite values. *)
Definition exact_mean (cells : list double) : double :=
  let plus := existsb (fun x => match x with PosInf => true | _ => false end) cells in
  let minus := existsb (fun x => match x with NegInf => true | _ => false end) cells in
  match plus, minus with
  | true, true => NaN
  | true, false => PosInf
  | false, true => NegInf
  | false, false =>
      match finite_values cells with
      | [] => NaN
      | vs => Finite (Qred (Qsum vs / inject_Z (Z.of_nat (length vs))))
      end
  end.

(** Whether every column of a batch is float64. *)
Definition all_float64 (b : Batch) : bool :=
  forallb (fun c => match snd c with Float64 _ => true | Object _ => false end)
    (batch_columns b).

(** Whether a batch carries strings. *)
Definition has_strings (b : Batch) : bool :=
  existsb (fun c => match snd c with Object (_ :: _) => true | _ => false end)
    (batch_columns b).

(** Whether a float64 column holds no NaN. *)
Definition complete_cells (cells : list double) : bool :=
  forallb (fun x => negb (is_nan x)) cells.

(** Whether a batch has no missing value. *)
Definition no_missing_values (b : Batch) : bool :=
  forallb (fun c => match snd c with
                    | Float64 cells => complete_cells cells
                    | Object _ => true
                    end)
    (batch_columns b).

(** The mean recovery fills a column with. *)
Definition fill_value (nanmean : list double -> double) (c : Column) : double :=
  match c with
  | Float64 cells => series_mean nanmean cells
  | Object _ => NaN
  end.

(** The shape of a batch: its length and, for each column, its name, dtype
    and number of cells. *)
Definition batch_shape (b : Batch) : nat * list (string * bool * nat) :=
  (batch_len b,
   map (fun c => match snd c with
                 | Float64 cells => (fst c, true, length cells)
                 | Object cells => (fst c, false, length cells)
                 end)
       (batch_columns b)).

Definition six_anomalies : list AnomalyRecord :=
  map (fun i => mkAnomalyRecord "2025-06-01T12:00:00" i 3 0.9 "HIGH" []) (seq 0 6).

(** Whether a frame has no missing value. *)
Definition no_missing (df : DataFrame) : bool :=
  forallb (fun c => forallb (fun x => match x with Some _ => true | None => false end) (snd c))
    (columns df).

(** ** Reasoning about computations *)

(** [m] neither reads nor writes [self]: it acts on the world only. *)
Definition world_only {Self A : Type} (m : Run Self A) : Prop :=
  forall s s' w, m s w = match m s' w with (r, _, w') => (r, s, w') end.

(** Run on [s], [m] leaves [self] as it was and its result satisfies [P]. *)
Definition spec_at {Self A : Type} (m : Run Self A) (s : Self) (P : result A -> Prop) : Prop :=
  forall w, snd (fst (m s w)) = s /\ P (fst (fst (m s w))).

(** The result is a value satisfying [P]. *)
Definition ok_with {A : Type} (P : A -> Prop) (r : result A) : Prop :=
  match r with
  | Ok a => P a
  | Raise _ => False
  end.

(** ** Postconditions of the methods *)

(** The keys of the metrics dict of [_train_ensemble_models]. *)
Definition metric_names : list string :=
  ["accuracy"; "precision"; "recall"; "f1_score"; "auc_roc"; "quantum_advantage";
   "computational_speedup"].

Definition in_unit_interval (x : Q) : Prop := (0 <= x)%Q /\ (x < 1)%Q.

(** What one iteration of the loop of [detect_anomalies] does to the list. *)
Definition appended_at (data : DataFrame) (i : nat) (before : list AnomalyRecord)
  (r : result (list AnomalyRecord)) : Prop :=
  match r with
  | Ok after =>
      after = before \/
      exists a, after = (before ++ [a])%list /\ index a = i /\ (2.5 <= anomaly_score a)%Q /\
                columns data <> []
  | Raise e => columns data = [] /\ exc_class e = "ValueError"
  end.

(** What [detect_anomalies] yields on [data]. *)
Definition records_within (data : DataFrame) (r : result (list AnomalyRecord)) : Prop :=
  match r with
  | Ok anomalies =>
      (length anomalies <= 10)%nat /\
      Forall (fun a => (index a < Nat.min (index_len data) 10)%nat /\
                       (2.5 <= anomaly_score a)%Q) anomalies
  | Raise ex => columns data = [] /\ exc_class ex = "ValueError"
  end.

(** The error of the readiness guard of [run_comprehensive_analysis]. *)
Definition not_operational_error : Exception :=
  RuntimeError "System not operational - initialization required".

(** What a run of the analysis yields, by the status it starts in. *)
Definition analysis_outcome (source : string) (o : AIAnalyticsOrchestrator)
  (r : result AnalysisReport) : Prop :=
  if String.eqb (system_status o) "OPERATIONAL" then
    ok_with (fun report =>
      data_source report = source /\
      (10000 <= Z.of_nat (samples_processed report) < 50000)%Z /\
      predictions_generated report = samples_processed report /\
      (anomalies_detected report <= 10)%nat /\
      (length (recommendations report) =
         if (5 <? anomalies_detected report)%nat then 5 else 4)%nat) r
  else r = Raise not_operational_error.

Definition failed_orchestrator : AIAnalyticsOrchestrator :=
  set_system_status "FAILED" AIAnalyticsOrchestrator_init.

Definition operational_orchestrator : AIAnalyticsOrchestrator :=
  set_system_status "OPERATIONAL" AIAnalyticsOrchestrator_init.

(** ** Further postconditions *)

(** The range each training metric is drawn from, lines 216-224. *)
Definition training_metric_ranges : list (string * (Q * Q)) :=
  [("accuracy", (0.92, 0.98)); ("precision", (0.89, 0.96)); ("recall", (0.88, 0.95));
   ("f1_score", (0.90, 0.97)); ("auc_roc", (0.93, 0.99));
   ("quantum_advantage", (1.15, 1.45)); ("computational_speedup", (2.1, 5.7))].

(** The range each health metric is drawn from, lines 458-465. *)
Definition health_metric_ranges : list (string * (Q * Q)) :=
  [("cpu_utilization", (0.15, 0.35)); ("memory_usage", (0.45, 0.75));
   ("gpu_utilization", (0.60, 0.90)); ("quantum_coherence", (0.85, 0.98));
   ("network_latency_ms", (1.2, 4.8)); ("prediction_accuracy", (0.92, 0.98))].

(** The dict [d] has the keys of [ranges], in order, each value in its range. *)
Definition within_ranges (ranges : list (string * (Q * Q))) (d : list (string * Q)) : Prop :=
  Forall2 (fun kv r => fst kv = fst r /\ (fst (snd r) <= snd kv)%Q /\ (snd kv <= snd (snd r))%Q)
    d ranges.

(** The column names of the generated dataset, lines 417-423. *)
Definition enterprise_columns : list string :=
  ["transaction_amount"; "customer_age"; "account_balance"; "credit_score";
   "transaction_frequency"; "geographic_risk_score"; "temporal_pattern_score"].

(** What the record built for row [i] of [data] looks like, lines 150-157. *)
Definition record_of (data : DataFrame) (i : nat) (a : AnomalyRecord) : Prop :=
  index a = i /\
  (2.5 <= anomaly_score a)%Q /\ (anomaly_score a <= 5.0)%Q /\
  (0.8 <= confidence a)%Q /\ (confidence a <= 0.99)%Q /\
  (risk_level a = "HIGH" \/ risk_level a = "MEDIUM") /\
  length (affected_features a) = 3%nat /\
  Forall (fun name => In name (column_names data)) (affected_features a).

(** [records] holds one record for some of [idxs], in the order of [idxs]. *)
Inductive picked_from (R : nat -> AnomalyRecord -> Prop)
  : list nat -> list AnomalyRecord -> Prop :=
| picked_nil : picked_from R [] []
| picked_skip (i : nat) (idxs : list nat) (records : list AnomalyRecord) :
    picked_from R idxs records -> picked_from R (i :: idxs) records
| picked_take (i : nat) (idxs : list nat) (a : AnomalyRecord) (records : list AnomalyRecord) :
    R i a -> picked_from R idxs records -> picked_from R (i :: idxs) (a :: records).

(** The orchestrators a program gets from the constructor by calling
    [initialize_system] and [run_comprehensive_analysis]. *)
Inductive reachable : AIAnalyticsOrchestrator -> Prop :=
| reach_constructed : reachable AIAnalyticsOrchestrator_init
| reach_initialize (o : AIAnalyticsOrchestrator) (w : World) :
    reachable o -> reachable (snd (fst (initialize_system o w)))
| reach_run (variate : Distribution -> N -> Q) (source : string)
    (o : AIAnalyticsOrchestrator) (w : World) :
    reachable o ->
    reachable (snd (fst (run_comprehensive_analysis variate source o w))).

(** What holds of the report of a run, lines 395-406. *)
Definition report_invariants (source : string) (report : AnalysisReport) : Prop :=
  data_source report = source /\
  (10000 <= Z.of_nat (samples_processed report) < 50000)%Z /\
  predictions_generated report = samples_processed report /\
  (anomalies_detected report <= 10)%nat /\
  recommendations report =
    (baseline_recommendations ++
     (if (5 <? anomalies_detected report)%nat then [urgent_recommendation] else []))%list /\
  within_ranges training_metric_ranges (model_performance report) /\
  quantum_advantage_factor report =
    dict_get (model_performance report) "quantum_advantage" 1.0 /\
  (1.15 <= quantum_advantage_factor report)%Q /\
  (quantum_advantage_factor report <= 1.45)%Q /\
  within_ranges health_metric_ranges (system_health report) /\
  (0.85 <= processing_efficiency report)%Q /\
  (processing_efficiency report <= 0.98)%Q.

(** The world after [draws] more samples and [reads] more clock readings. *)
Definition later (draws reads : nat) (w : World) : World :=
  mkWorld (entropy w) (draws + cursor w) (wall_clock w) (reads + clock_reads w).

(** Whether a column holds no missing value. *)
Definition complete (c : Series) : bool :=
  forallb (fun x => match x with Some _ => true | None => false end) c.

Create HintDb run discriminated.

Lemma world_only_ret {Self A : Type} (a : A) : world_only (Self := Self) (ret a).
Proof. intros s s' w. reflexivity. Qed.

Lemma world_only_raise {Self A : Type} (e : Exception) :
  world_only (Self := Self) (A := A) (raise e).
Proof. intros s s' w. reflexivity. Qed.

Lemma world_only_raw_draw {Self : Type} : world_only (Self := Self) raw_draw.
Proof. intros s s' w. reflexivity. Qed.

Lemma world_only_now {Self : Type} : world_only (Self := Self) datetime_now_isoformat.
Proof. intros s s' w. reflexivity. Qed.

Lemma world_only_bind {Self A B : Type} (m : Run Self A) (k : A -> Run Self B) :
  world_only m -> (forall a, world_only (k a)) -> world_only (bind m k).
Proof.
  intros Hm Hk s s' w. unfold bind.
  rewrite (Hm s s' w).
  destruct (m s' w) as [[r s1] w1] eqn:E.
  pose proof (Hm s' s' w) as E'. rewrite E in E'.
  injection E' as E'. subst s1.
  destruct r as [a | e]; [apply Hk | reflexivity].
Qed.

Lemma world_only_if {Self A : Type} (b : bool) (m1 m2 : Run Self A) :
  world_only m1 -> world_only m2 -> world_only (if b then m1 else m2).
Proof. destruct b; auto. Qed.

Lemma world_only_replicateM {Self A : Type} (n : nat) (m : Run Self A) :
  world_only m -> world_only (replicateM n m).
Proof.
  intros Hm. induction n as [| n IH]; simpl.
  - apply world_only_ret.
  - apply world_only_bind; [exact Hm | intro x].
    apply world_only_bind; [exact IH | intro xs].
    apply world_only_ret.
Qed.

Lemma world_only_for_each {Self I Acc : Type} (idxs : list I)
  (body : I -> Acc -> Run Self Acc) :
  (forall i acc, world_only (body i acc)) ->
  forall acc, world_only (for_each idxs body acc).
Proof.
  intros Hbody. induction idxs as [| i rest IH]; intros acc; simpl.
  - apply world_only_ret.
  - apply world_only_bind; [apply Hbody | exact IH].
Qed.

#[local] Hint Resolve world_only_ret world_only_raise world_only_raw_draw world_only_now
  world_only_bind world_only_if world_only_replicateM world_only_for_each : run.

(** A computation on the world leaves [self] alone, whatever it returns. *)
Lemma world_only_keeps_self {Self A : Type} (m : Run Self A) :
  world_only m -> forall s w, snd (fst (m s w)) = s.
Proof.
  intros Hm s w. rewrite (Hm s s w).
  destruct (m s w) as [[r s1] w1]. reflexivity.
Qed.

(** Its result and the world it leaves do not depend on [self]. *)
Lemma world_only_same_result {Self A : Type} (m : Run Self A) :
  world_only m ->
  forall s s' w, fst (fst (m s w)) = fst (fst (m s' w)) /\ snd (m s w) = snd (m s' w).
Proof.
  intros Hm s s' w. rewrite (Hm s s' w).
  destruct (m s' w) as [[r s1] w1]. split; reflexivity.
Qed.

Lemma spec_at_world_only {Self A : Type} (m : Run Self A) (s : Self) (P : result A -> Prop) :
  world_only m -> (forall w, P (fst (fst (m s w)))) -> spec_at m s P.
Proof.
  intros Hm HP w. split; [apply world_only_keeps_self, Hm | apply HP].
Qed.

Lemma spec_at_ret {Self A : Type} (a : A) (s : Self) (P : result A -> Prop) :
  P (Ok a) -> spec_at (ret a) s P.
Proof. intros H w. split; [reflexivity | exact H]. Qed.

Lemma spec_at_raise {Self A : Type} (e : Exception) (s : Self) (P : result A -> Prop) :
  P (Raise e) -> spec_at (raise e) s P.
Proof. intros H w. split; [reflexivity | exact H]. Qed.

Lemma spec_at_bind {Self A B : Type} (m : Run Self A) (k : A -> Run Self B) (s : Self)
  (P : result A -> Prop) (Q : result B -> Prop) :
  spec_at m s P ->
  (forall a, P (Ok a) -> spec_at (k a) s Q) ->
  (forall e, P (Raise e) -> Q (Raise e)) ->
  spec_at (bind m k) s Q.
Proof.
  intros Hm Hk He w. unfold bind.
  destruct (Hm w) as [Hs HP].
  destruct (m s w) as [[r s1] w1]. simpl in Hs, HP. subst s1.
  destruct r as [a | e].
  - apply Hk, HP.
  - split; [reflexivity | apply He, HP].
Qed.

Lemma spec_at_weaken {Self A : Type} (m : Run Self A) (s : Self) (P Q : result A -> Prop) :
  spec_at m s P -> (forall r, P r -> Q r) -> spec_at m s Q.
Proof.
  intros Hm HPQ w. destruct (Hm w) as [Hs HP]. split; [exact Hs | apply HPQ, HP].
Qed.

(** The composition of computations that always return a value. *)
Lemma spec_at_bind_ok {Self A B : Type} (m : Run Self A) (k : A -> Run Self B) (s : Self)
  (P : A -> Prop) (Q : B -> Prop) :
  spec_at m s (ok_with P) ->
  (forall a, P a -> spec_at (k a) s (ok_with Q)) ->
  spec_at (bind m k) s (ok_with Q).
Proof.
  intros Hm Hk. apply (spec_at_bind m k s (ok_with P)).
  - exact Hm.
  - intros a Ha. apply Hk, Ha.
  - intros e [].
Qed.

Lemma spec_at_self_get {Self A : Type} (field : Self -> A) (s : Self) (P : result A -> Prop) :
  P (Ok (field s)) -> spec_at (self_get field) s P.
Proof. intros H w. split; [reflexivity | exact H]. Qed.

Lemma spec_at_call_on {Self Attr A : Type} (attr : Self -> Attr) (store : Self -> Attr -> Self)
  (m : Run Attr A) (s : Self) (P : result A -> Prop) :
  store s (attr s) = s ->
  spec_at m (attr s) P ->
  spec_at (call_on attr store m) s P.
Proof.
  intros Hstore Hm w. unfold call_on.
  destruct (Hm w) as [Hs HP].
  destruct (m (attr s) w) as [[r a1] w1]. simpl in *. subst a1.
  split; [exact Hstore | exact HP].
Qed.

Lemma set_analytics_engine_same (o : AIAnalyticsOrchestrator) :
  set_analytics_engine o (analytics_engine o) = o.
Proof. destruct o. reflexivity. Qed.

Lemma spec_at_replicateM {Self A : Type} (n : nat) (m : Run Self A) (s : Self)
  (P : A -> Prop) :
  spec_at m s (ok_with P) ->
  spec_at (replicateM n m) s (ok_with (fun l => length l = n /\ Forall P l)).
Proof.
  intros Hm. induction n as [| n IH]; simpl.
  - apply spec_at_ret. simpl. split; [reflexivity | constructor].
  - eapply spec_at_bind_ok; [exact Hm | intros x Hx].
    eapply spec_at_bind_ok; [exact IH | intros xs [Hlen Hall]].
    apply spec_at_ret. simpl. split; [congruence | constructor; assumption].
Qed.

(** ** The generator *)

Lemma unit_float_range (k : N) : (0 <= unit_float k)%Q /\ (unit_float k < 1)%Q.
Proof.
  unfold unit_float, Qle, Qlt. cbn [Qnum Qden].
  assert (H : (k mod 2 ^ 53 < 2 ^ 53)%N) by (apply N.mod_lt; discriminate).
  set (m := (k mod 2 ^ 53)%N) in *.
  assert (E : Z.pos (2 ^ 53) = Z.of_N (2 ^ 53)) by reflexivity.
  rewrite E. clearbody m.
  split; lia.
Qed.

Lemma uniform_value_lower (low high u : Q) :
  (low <= high)%Q -> (0 <= u)%Q -> (low <= low + (high - low) * u)%Q.
Proof. intros H1 H2. nra. Qed.

Lemma world_only_random {Self : Type} : world_only (Self := Self) np_random_random.
Proof. unfold np_random_random. auto with run. Qed.

Lemma world_only_uniform {Self : Type} (low high : Q) :
  world_only (Self := Self) (np_random_uniform low high).
Proof. unfold np_random_uniform. auto using world_only_random with run. Qed.

Lemma world_only_randint {Self : Type} (low high : Z) :
  world_only (Self := Self) (np_random_randint low high).
Proof. unfold np_random_randint. auto with run. Qed.

Lemma world_only_choice {Self : Type} (a size : nat) :
  world_only (Self := Self) (np_random_choice a size).
Proof. unfold np_random_choice. auto 6 with run. Qed.

#[local] Hint Resolve world_only_random world_only_uniform world_only_randint
  world_only_choice : run.

Lemma spec_at_raw_draw {Self : Type} (s : Self) :
  spec_at raw_draw s (ok_with (fun _ => True)).
Proof. intros w. split; [reflexivity | exact I]. Qed.

Lemma spec_at_now {Self : Type} (s : Self) :
  spec_at datetime_now_isoformat s (ok_with (fun _ => True)).
Proof. intros w. split; [reflexivity | exact I]. Qed.

Lemma spec_at_random {Self : Type} (s : Self) :
  spec_at np_random_random s (ok_with (fun u => (0 <= u)%Q /\ (u < 1)%Q)).
Proof.
  unfold np_random_random.
  eapply spec_at_bind_ok; [apply spec_at_raw_draw | intros k _].
  apply spec_at_ret. apply unit_float_range.
Qed.

Lemma spec_at_uniform {Self : Type} (low high : Q) (s : Self) :
  (low <= high)%Q ->
  spec_at (np_random_uniform low high) s (ok_with (fun x => (low <= x)%Q)).
Proof.
  intros Hle. unfold np_random_uniform.
  eapply spec_at_bind_ok; [apply spec_at_random | intros u [Hu _]].
  apply spec_at_ret. simpl. apply uniform_value_lower; assumption.
Qed.

Lemma spec_at_uniform_any {Self : Type} (low high : Q) (s : Self) :
  spec_at (np_random_uniform low high) s (ok_with (fun _ => True)).
Proof.
  unfold np_random_uniform.
  eapply spec_at_bind_ok; [apply spec_at_random | intros u _].
  apply spec_at_ret. exact I.
Qed.

Lemma spec_at_randint {Self : Type} (low high : Z) (s : Self) :
  (low < high)%Z ->
  spec_at (np_random_randint low high) s (ok_with (fun n => (low <= n < high)%Z)).
Proof.
  intros Hlt. unfold np_random_randint.
  destruct (Z.leb_spec high low) as [Hle | _]; [lia |].
  eapply spec_at_bind_ok; [apply spec_at_raw_draw | intros k _].
  apply spec_at_ret. simpl.
  pose proof (Z.mod_pos_bound (Z.of_N k) (high - low)). lia.
Qed.

Lemma spec_at_choice {Self : Type} (a size : nat) (s : Self) :
  a <> O ->
  spec_at (np_random_choice a size) s
    (ok_with (fun idx => length idx = size /\ Forall (fun i => (i < a)%nat) idx)).
Proof.
  intros Ha. unfold np_random_choice.
  destruct (Nat.eqb_spec a 0) as [E | _]; [contradiction |].
  apply spec_at_replicateM.
  eapply spec_at_bind_ok; [apply spec_at_raw_draw | intros k _].
  apply spec_at_ret. simpl. apply Nat.mod_upper_bound, Ha.
Qed.

Lemma spec_at_choice_empty {Self : Type} (size : nat) (s : Self) :
  spec_at (np_random_choice 0 size) s (raises (A := list nat) "ValueError").
Proof. apply spec_at_raise. reflexivity. Qed.

Section Properties.

Variable variate : Distribution -> N -> Q.
Variable nanmean : list double -> double.

Lemma world_only_variates {Self : Type} (d : Distribution) (n : nat) :
  world_only (Self := Self) (np_random_variates variate d n).
Proof. unfold np_random_variates. auto with run. Qed.

Lemma spec_at_variates {Self : Type} (d : Distribution) (n : nat) (s : Self) :
  spec_at (np_random_variates variate d n) s (ok_with (fun l => length l = n)).
Proof.
  unfold np_random_variates.
  eapply spec_at_weaken.
  - apply spec_at_replicateM with (P := fun _ => True).
    eapply spec_at_bind_ok; [apply spec_at_raw_draw | intros k _].
    apply spec_at_ret. exact I.
  - intros [l | e]; simpl; tauto.
Qed.

(** ** The analytics engine acts on the world only *)

Lemma world_only_neural_architecture_search : world_only _neural_architecture_search.
Proof. unfold _neural_architecture_search. auto 8 with run. Qed.

Lemma world_only_quantum_feature_engineering (data : DataFrame) :
  world_only (_quantum_feature_engineering data).
Proof. unfold _quantum_feature_engineering, np_random_random_2d. auto with run. Qed.

Lemma world_only_train_ensemble_models (data : DataFrame) :
  world_only (_train_ensemble_models data).
Proof. unfold _train_ensemble_models. auto 20 with run. Qed.

Lemma world_only_train_model (data : DataFrame) (cfg : ModelConfiguration) :
  world_only (train_model data cfg).
Proof.
  unfold train_model, _preprocess_data.
  auto 10 using world_only_neural_architecture_search,
    world_only_quantum_feature_engineering, world_only_train_ensemble_models with run.
Qed.

Lemma world_only_quantum_transform (features : list (list float)) :
  world_only (_quantum_transform variate features).
Proof.
  unfold _quantum_transform, np_random_normal_2d.
  auto using world_only_variates with run.
Qed.

Lemma world_only_predict_batch (features : list (list float)) :
  world_only (predict_batch variate features).
Proof.
  unfold predict_batch, np_random_random_1d, np_random_random_2d.
  auto 10 using world_only_quantum_transform with run.
Qed.

Lemma world_only_detect_anomalies_step (data : DataFrame) (i : nat)
  (anomalies : list AnomalyRecord) :
  world_only (detect_anomalies_step data i anomalies).
Proof. unfold detect_anomalies_step. auto 20 with run. Qed.

Lemma world_only_detect_anomalies (data : DataFrame) : world_only (detect_anomalies data).
Proof.
  unfold detect_anomalies.
  apply world_only_for_each. intros i acc. apply world_only_detect_anomalies_step.
Qed.

(** ** What the engine returns *)

Lemma train_model_returns (data : DataFrame) (cfg : ModelConfiguration)
  (e : QuantumEnhancedAnalytics) :
  spec_at (train_model data cfg) e (ok_with (fun metrics => map fst metrics = metric_names)).
Proof.
  apply spec_at_world_only; [apply world_only_train_model |].
  intros w. unfold train_model, _preprocess_data, _neural_architecture_search,
    _quantum_feature_engineering, _train_ensemble_models.
  refine (proj2 (_ w)).
  eapply spec_at_bind_ok; [apply spec_at_ret with (P := ok_with (fun _ => True)); exact I |].
  intros _ _.
  eapply spec_at_bind_ok.
  { eapply spec_at_bind_ok; [apply spec_at_randint with (low := 10%Z); lia | intros ? _].
    eapply spec_at_bind_ok; [apply spec_at_randint with (low := 128%Z); lia | intros ? _].
    eapply spec_at_bind_ok; [apply spec_at_uniform_any | intros ? _].
    apply spec_at_ret with (P := ok_with (fun _ => True)). exact I. }
  intros _ _.
  eapply spec_at_bind_ok.
  { unfold np_random_random_2d. apply spec_at_replicateM.
    apply spec_at_replicateM. apply spec_at_random. }
  intros _ _.
  eapply spec_at_bind_ok with (P := fun metrics => map fst metrics = metric_names).
  { repeat (eapply spec_at_bind_ok; [apply spec_at_uniform_any | intros ? _]).
    apply spec_at_ret. reflexivity. }
  intros metrics H. apply spec_at_ret. exact H.
Qed.

Lemma predict_batch_returns (features : list (list float)) (e : QuantumEnhancedAnalytics) :
  spec_at (predict_batch variate features) e
    (ok_with (fun p =>
       length (fst p) = length features /\
       length (snd p) = length features /\
       Forall (fun row => length row = 2%nat /\ Forall in_unit_interval row) (snd p))).
Proof.
  unfold predict_batch, _quantum_transform, np_random_normal_2d, np_random_random_1d,
    np_random_random_2d.
  eapply spec_at_bind_ok.
  { eapply spec_at_bind_ok.
    - apply spec_at_replicateM. apply spec_at_variates.
    - intros noise _. apply spec_at_ret with (P := ok_with (fun _ => True)). exact I. }
  intros _ _.
  eapply spec_at_bind_ok; [apply spec_at_replicateM, spec_at_random |].
  intros predictions [Hlen _].
  eapply spec_at_bind_ok.
  { apply spec_at_replicateM. apply spec_at_replicateM. apply spec_at_random. }
  intros intervals [Hlen' Hrows].
  apply spec_at_ret. simpl. repeat split; assumption.
Qed.

Lemma detect_anomalies_step_spec (data : DataFrame) (i : nat) (before : list AnomalyRecord)
  (e : QuantumEnhancedAnalytics) :
  spec_at (detect_anomalies_step data i before) e (appended_at data i before).
Proof.
  unfold detect_anomalies_step.
  eapply spec_at_bind; [apply spec_at_random | | intros ? []].
  intros r _. destruct (Qgtb r 0.95); [| apply spec_at_ret; left; reflexivity].
  eapply spec_at_bind; [apply spec_at_now | | intros ? []]. intros ts _.
  eapply spec_at_bind; [apply spec_at_uniform with (low := 2.5%Q); discriminate | |
                        intros ? []].
  intros score Hscore.
  eapply spec_at_bind; [apply spec_at_uniform_any | | intros ? []]. intros conf _.
  eapply spec_at_bind; [apply spec_at_random | | intros ? []]. intros r' _.
  unfold column_names. rewrite length_map.
  destruct (columns data) as [| c cols] eqn:Hcols.
  - eapply spec_at_bind; [apply spec_at_choice_empty | intros ? [] |].
    intros ex Hex. split; [exact Hcols | exact Hex].
  - eapply spec_at_bind; [apply spec_at_choice; discriminate | | intros ? []].
    intros picked _. apply spec_at_ret. right.
    eexists. repeat split; [exact Hscore | rewrite Hcols; discriminate].
Qed.

Lemma detect_anomalies_loop_spec (data : DataFrame) (e : QuantumEnhancedAnalytics)
  (idxs : list nat) :
  forall before,
    spec_at (for_each idxs (detect_anomalies_step data) before) e
      (fun r =>
         match r with
         | Ok after =>
             exists added,
               after = (before ++ added)%list /\
               (length added <= length idxs)%nat /\
               Forall (fun a => In (index a) idxs /\ (2.5 <= anomaly_score a)%Q) added
         | Raise ex => columns data = [] /\ exc_class ex = "ValueError"
         end).
Proof.
  induction idxs as [| i rest IH]; intros before; simpl.
  - apply spec_at_ret. exists []. rewrite app_nil_r. repeat split; auto.
  - eapply spec_at_bind; [apply detect_anomalies_step_spec | | intros ex H; exact H].
    intros mid Hmid. eapply spec_at_weaken; [apply IH |].
    intros [after | ex]; [| tauto].
    intros (added & Hafter & Hlen & Hall).
    assert (Hrest : Forall (fun a => (i = index a \/ In (index a) rest) /\
                                     (2.5 <= anomaly_score a)%Q) added).
    { eapply Forall_impl; [| exact Hall]. simpl. tauto. }
    destruct Hmid as [-> | (a & -> & Hi & Hscore & _)].
    + exists added. repeat split; [assumption | lia | assumption].
    + exists (a :: added). rewrite <- app_assoc in Hafter. repeat split.
      * exact Hafter.
      * simpl. lia.
      * constructor; [split; [left; symmetry; exact Hi | exact Hscore] | exact Hrest].
Qed.

Lemma detect_anomalies_spec (data : DataFrame) (e : QuantumEnhancedAnalytics) :
  spec_at (detect_anomalies data) e (records_within data).
Proof.
  unfold detect_anomalies.
  eapply spec_at_weaken; [apply detect_anomalies_loop_spec |].
  intros [anomalies | ex]; [| intros H; exact H].
  intros (added & -> & Hlen & Hall). simpl app. rewrite length_seq in Hlen.
  split; [lia |].
  eapply Forall_impl; [| exact Hall].
  intros a [Hin Hscore]. apply in_seq in Hin. split; [lia | exact Hscore].
Qed.

Lemma spec_at_ok_inv {Self A : Type} (m : Run Self A) (s : Self) (P : A -> Prop) :
  spec_at m s (ok_with P) -> forall w, exists a w', m s w = (Ok a, s, w') /\ P a.
Proof.
  intros Hm w. destruct (Hm w) as [Hs HP].
  destruct (m s w) as [[[a | e] s1] w1]; simpl in *; [| contradiction].
  subst s1. exists a, w1. split; [reflexivity | exact HP].
Qed.

(** ** The orchestrator *)

Lemma rows_of_length (n : nat) : forall cols, length (rows_of n cols) = n.
Proof. induction n as [| n IH]; intros cols; simpl; [reflexivity | now rewrite IH]. Qed.

Lemma generate_enterprise_dataset_spec (o : AIAnalyticsOrchestrator) :
  spec_at (_generate_enterprise_dataset variate) o
    (ok_with (fun df => (10000 <= Z.of_nat (index_len df) < 50000)%Z /\
                        length (columns df) = 7%nat /\
                        Forall (fun c => length (snd c) = index_len df) (columns df))).
Proof.
  unfold _generate_enterprise_dataset, np_random_uniform_1d.
  eapply spec_at_bind_ok; [apply spec_at_randint with (low := 10000%Z); lia |].
  intros n Hn. simpl.
  do 6 (eapply spec_at_bind_ok; [apply spec_at_variates | intros ? ?]).
  eapply spec_at_bind_ok; [apply spec_at_replicateM, spec_at_uniform_any | intros ? [? _]].
  apply spec_at_ret. simpl. cbv beta in *. split; [lia |]. split; [reflexivity |].
  repeat constructor; simpl; rewrite length_map; assumption.
Qed.

Lemma get_system_health_metrics_spec (o : AIAnalyticsOrchestrator) :
  spec_at _get_system_health_metrics o (ok_with (fun health => length health = 6%nat)).
Proof.
  unfold _get_system_health_metrics.
  repeat (eapply spec_at_bind_ok; [apply spec_at_uniform_any | intros ? _]).
  apply spec_at_ret. reflexivity.
Qed.

Lemma run_comprehensive_analysis_spec (source : string) (o : AIAnalyticsOrchestrator) :
  spec_at (run_comprehensive_analysis variate source) o (analysis_outcome source o).
Proof.
  unfold run_comprehensive_analysis, analysis_outcome.
  eapply spec_at_bind with (P := fun r => r = Ok (system_status o));
    [apply spec_at_self_get; reflexivity | | intros ? [=]].
  intros status [= ->].
  destruct (String.eqb (system_status o) "OPERATIONAL"); simpl negb; cbv iota.
  2: { apply spec_at_raise. reflexivity. }
  eapply spec_at_bind_ok; [apply generate_enterprise_dataset_spec |].
  intros sample_data (Hn & Hcols & _).
  eapply spec_at_bind_ok; [apply spec_at_self_get with (P := ok_with (fun _ => True)); exact I |].
  intros cfg _.
  eapply spec_at_bind_ok.
  { apply spec_at_call_on; [apply set_analytics_engine_same | apply train_model_returns]. }
  intros training_results _.
  eapply spec_at_bind_ok.
  { apply spec_at_call_on; [apply set_analytics_engine_same | apply predict_batch_returns]. }
  intros prediction (Hpred & _).
  eapply spec_at_bind with (P := records_within sample_data).
  { apply spec_at_call_on; [apply set_analytics_engine_same | apply detect_anomalies_spec]. }
  2: { intros ex [Hnil _]. rewrite Hnil in Hcols. discriminate. }
  intros anomalies [Hcount _].
  eapply spec_at_bind_ok; [apply spec_at_now | intros now _].
  eapply spec_at_bind_ok; [apply get_system_health_metrics_spec | intros health _].
  unfold _generate_ai_recommendations.
  eapply spec_at_bind_ok with
    (P := fun advice => (length advice = if (5 <? length anomalies)%nat then 5 else 4)%nat).
  { apply spec_at_ret. simpl. destruct (5 <? length anomalies)%nat; reflexivity. }
  intros advice Hadvice.
  eapply spec_at_bind_ok; [apply spec_at_uniform_any | intros efficiency _].
  apply spec_at_ret. simpl.
  unfold numeric_values in Hpred. rewrite rows_of_length in Hpred.
  repeat split; try assumption; lia.
Qed.

Lemma world_only_generate_enterprise_dataset :
  world_only (_generate_enterprise_dataset variate).
Proof.
  unfold _generate_enterprise_dataset, np_random_uniform_1d.
  apply world_only_bind; [apply world_only_randint | intros n; cbv zeta].
  auto 20 using world_only_variates with run.
Qed.

Lemma world_only_get_system_health_metrics : world_only _get_system_health_metrics.
Proof. unfold _get_system_health_metrics. auto 20 with run. Qed.

Lemma world_only_perform_system_health_check : world_only _perform_system_health_check.
Proof. unfold _perform_system_health_check. auto 6 with run. Qed.

(** [initialize_system] does write the status: the lookup of
    [np.random.complex128] fails, and the handler records the failure. *)
Lemma initialize_system_fails (o : AIAnalyticsOrchestrator) (w : World) :
  initialize_system o w = (Ok false, set_system_status "FAILED" o, w).
Proof.
  unfold initialize_system, try_except, bind, on_engine, call_on,
    initialize_quantum_circuits, np_random_complex128, raise. simpl.
  rewrite set_analytics_engine_same. reflexivity.
Qed.

(** ** Batch recovery *)

Lemma fill_columns_values (value_of : Column -> double) (cols : list (string * Column)) :
  fill_columns cols (map (fun c => (fst c, value_of (snd c))) cols) =
  map (fun c => (fst c, fill_column (value_of (snd c)) (snd c))) cols.
Proof.
  induction cols as [| [name c] cols IH]; simpl; [reflexivity | now rewrite IH].
Qed.

Lemma column_means_float64 (cols : list (string * Column)) :
  forallb (fun c => match snd c with Float64 _ => true | Object _ => false end) cols = true ->
  column_means nanmean cols = Ok (map (fun c => (fst c, fill_value nanmean (snd c))) cols).
Proof.
  induction cols as [| [name [cells | strings]] cols IH]; simpl; intros H.
  - reflexivity.
  - rewrite (IH H). reflexivity.
  - discriminate.
Qed.

Lemma column_means_strings (cols : list (string * Column)) :
  existsb (fun c => match snd c with Object (_ :: _) => true | _ => false end) cols = true ->
  raises "TypeError" (column_means nanmean cols).
Proof.
  induction cols as [| [name [cells | [| x strings]]] cols IH]; simpl; intros H.
  - discriminate.
  - specialize (IH H). destruct (column_means nanmean cols); [contradiction | exact IH].
  - specialize (IH H). destruct (column_means nanmean cols); [contradiction | exact IH].
  - reflexivity.
Qed.

(** What recovery returns on a batch of float64 columns. *)
Lemma recovery_of_float64_batch (batch : Batch) (p : EnterpriseDataProcessor) (w : World) :
  all_float64 batch = true ->
  _apply_data_recovery nanmean batch p w =
  (Ok (mkBatch (batch_len batch)
         (map (fun c => (fst c, fill_column (fill_value nanmean (snd c)) (snd c)))
              (batch_columns batch))),
   p, w).
Proof.
  intros Hfloat. unfold _apply_data_recovery, bind, from_result, ret, frame_mean.
  rewrite (column_means_float64 _ Hfloat). unfold fillna.
  rewrite fill_columns_values. reflexivity.
Qed.

Lemma recovery_of_strings (batch : Batch) (p : EnterpriseDataProcessor) (w : World) :
  has_strings batch = true ->
  exists e,
    _apply_data_recovery nanmean batch p w = (Raise e, p, w) /\ exc_class e = "TypeError".
Proof.
  intros Hstrings. unfold _apply_data_recovery, bind, from_result, frame_mean.
  pose proof (column_means_strings _ Hstrings) as Hraise.
  destruct (column_means nanmean (batch_columns batch)) as [means | e]; [contradiction |].
  exists e. split; [reflexivity | exact Hraise].
Qed.

Lemma fill_cell_complete (value : double) (cells : list double) :
  complete_cells cells = true -> map (fill_cell value) cells = cells.
Proof.
  unfold complete_cells, fill_cell.
  induction cells as [| x cells IH]; simpl; intros H; [reflexivity |].
  apply andb_true_iff in H. destruct H as [Hx Hcells].
  apply negb_true_iff in Hx. rewrite Hx, (IH Hcells). reflexivity.
Qed.

Lemma fill_cell_nan (cells : list double) : map (fill_cell NaN) cells = cells.
Proof.
  unfold fill_cell. induction cells as [| x cells IH]; simpl; [reflexivity |].
  rewrite IH. destruct x; reflexivity.
Qed.

Lemma fill_cell_value_complete (value : double) (cells : list double) :
  is_nan value = false -> complete_cells (map (fill_cell value) cells) = true.
Proof.
  intros Hvalue. unfold complete_cells, fill_cell.
  induction cells as [| x cells IH]; simpl; [reflexivity |].
  rewrite IH, andb_true_r. destruct (is_nan x) eqn:E; [rewrite Hvalue | rewrite E]; reflexivity.
Qed.


Lemma series_mean_nan_or_complete (cells : list double) :
  let once := map (fill_cell (series_mean nanmean cells)) cells in
  (is_nan (series_mean nanmean cells) = true /\ once = cells) \/
  (is_nan (series_mean nanmean cells) = false /\ complete_cells once = true).
Proof.
  simpl. destruct (is_nan (series_mean nanmean cells)) eqn:E.
  - left. split; [reflexivity |].
    destruct (series_mean nanmean cells); try discriminate. apply fill_cell_nan.
  - right. split; [reflexivity | apply fill_cell_value_complete, E].
Qed.

Lemma fill_cell_twice (cells : list double) :
  let once := map (fill_cell (series_mean nanmean cells)) cells in
  map (fill_cell (series_mean nanmean once)) once = once.
Proof.
  simpl. destruct (series_mean_nan_or_complete cells) as [[Hnan Hsame] | [_ Hcomplete]];
    simpl in *.
  - rewrite Hsame.
    destruct (series_mean nanmean cells); try discriminate. apply fill_cell_nan.
  - apply fill_cell_complete, Hcomplete.
Qed.

(** ** The properties of the specification *)

(** C1 (as the code has it).  Called in any status other than "OPERATIONAL",
    [run_comprehensive_analysis] raises RuntimeError("System not operational -
    initialization required"), whatever the data source; no report is
    produced, and the orchestrator, the generator and the clock are left
    exactly as they were. *)
Theorem run_analysis_refused_unless_operational
  (source : string) (o : AIAnalyticsOrchestrator) (w : World) :
  system_status o <> "OPERATIONAL" ->
  run_comprehensive_analysis variate source o w = (Raise not_operational_error, o, w).
Proof.
  intros Hstatus.
  unfold run_comprehensive_analysis, bind, self_get, raise.
  destruct (String.eqb_spec (system_status o) "OPERATIONAL") as [E | _].
  - contradiction.
  - reflexivity.
Qed.

(** C2 (as the code has it).  [detect_anomalies] never reads
    [config.anomaly_detection_threshold]: on the same dataset and the same
    draws it returns the same records under any two thresholds, so raising
    the threshold never increases their number; and every record returned
    has an anomaly_score of at least 2.5, the lower end of the range the
    score is drawn from. *)
Theorem detect_anomalies_ignores_threshold
  (data : DataFrame) (e : QuantumEnhancedAnalytics) (w : World) (t1 t2 : Q) :
  (t1 <= t2)%Q ->
  let found t := fst (fst (detect_anomalies data (with_threshold e t) w)) in
  found t2 = found t1 /\
  (forall l1 l2, found t1 = Ok l1 -> found t2 = Ok l2 -> (length l2 <= length l1)%nat) /\
  (forall l1, found t1 = Ok l1 -> Forall (fun a => (2.5 <= anomaly_score a)%Q) l1).
Proof.
  intros _ found. subst found. cbv beta.
  pose proof (world_only_same_result _ (world_only_detect_anomalies data)
                (with_threshold e t2) (with_threshold e t1) w) as [Hsame _].
  split; [exact Hsame |]. split.
  - intros l1 l2 H1 H2. rewrite Hsame, H1 in H2. injection H2 as <-. lia.
  - intros l1 H1.
    destruct (detect_anomalies_spec data (with_threshold e t1) w) as [_ Hspec].
    rewrite H1 in Hspec. destruct Hspec as [_ Hall].
    eapply Forall_impl; [| exact Hall]. simpl. tauto.
Qed.


(** C4 (as the code has it).  For every 2-D input array [predict_batch]
    returns a predictions array and a confidence array whose lengths both
    equal the input row count; every confidence row holds two independent
    draws from [0, 1), with no order between them. *)
Theorem predict_batch_lengths
  (features : list (list float)) (e : QuantumEnhancedAnalytics) (w : World) :
  exists predictions intervals w',
    predict_batch variate features e w = (Ok (predictions, intervals), e, w') /\
    length predictions = length features /\
    length intervals = length features /\
    Forall (fun row => exists low high,
                row = [low; high] /\ in_unit_interval low /\ in_unit_interval high)
           intervals.
Proof.
  destruct (spec_at_ok_inv _ _ _ (predict_batch_returns features e) w)
    as ([predictions intervals] & w' & Hrun & Hp & Hi & Hrows).
  exists predictions, intervals, w'. simpl in *. repeat split; try assumption.
  eapply Forall_impl; [| exact Hrows].
  intros row [Hlen Hunit].
  destruct row as [| low [| high [| ? ?]]]; try discriminate.
  exists low, high. inversion Hunit as [| ? ? Hlow Hrest]; subst.
  inversion Hrest; subst. auto.
Qed.

(** C5 (as the code has it).  [predict_batch] never consults the model cache:
    it returns for every engine, trained or not, with the result the same
    whatever the engine holds; and [train_model] returns leaving the engine,
    its [model_cache] included, exactly as it was. *)
Theorem predict_batch_needs_no_model
  (features : list (list float)) (data : DataFrame) (cfg : ModelConfiguration)
  (e e' : QuantumEnhancedAnalytics) (w : World) :
  (exists p w', predict_batch variate features e w = (Ok p, e, w') /\
                fst (fst (predict_batch variate features e' w)) = Ok p) /\
  (exists metrics w', train_model data cfg e w = (Ok metrics, e, w')).
Proof.
  split.
  - destruct (spec_at_ok_inv _ _ _ (predict_batch_returns features e) w)
      as (p & w' & Hrun & _).
    exists p, w'. split; [exact Hrun |].
    destruct (world_only_same_result _ (world_only_predict_batch features) e' e w)
      as [Hsame _].
    rewrite Hsame, Hrun. reflexivity.
  - destruct (spec_at_ok_inv _ _ _ (train_model_returns data cfg e) w)
      as (metrics & w' & Hrun & _).
    exists metrics, w'. exact Hrun.
Qed.

(** C6 (as the code has it).  [train_model] validates nothing: for every
    dataset, empty or without a numeric column included, it returns the
    seven training metrics and leaves the engine as it was. *)
Theorem train_model_accepts_every_dataset
  (data : DataFrame) (cfg : ModelConfiguration) (e : QuantumEnhancedAnalytics) (w : World) :
  exists metrics w',
    train_model data cfg e w = (Ok metrics, e, w') /\
    map fst metrics = metric_names.
Proof. apply (spec_at_ok_inv _ _ _ (train_model_returns data cfg e) w). Qed.

(** C7.  Recommendation generation is a pure function of the anomaly list:
    it touches neither the orchestrator nor the world, and returns the four
    baseline recommendations, followed by the urgent one if and only if
    there are more than 5 anomalies; for 6 anomalies it returns exactly 5
    recommendations, the urgent one among them. *)
Theorem recommendations_from_anomaly_count
  (anomalies : list AnomalyRecord) (o : AIAnalyticsOrchestrator) (w : World) :
  exists advice,
    (forall o' w', _generate_ai_recommendations anomalies o' w' = (Ok advice, o', w')) /\
    _generate_ai_recommendations anomalies o w = (Ok advice, o, w) /\
    length baseline_recommendations = 4%nat /\
    firstn 4 advice = baseline_recommendations /\
    skipn 4 advice = (if (5 <? length anomalies)%nat then [urgent_recommendation] else []) /\
    (In urgent_recommendation advice <-> (5 < length anomalies)%nat) /\
    (length anomalies = 6%nat -> length advice = 5%nat /\ In urgent_recommendation advice).
Proof.
  unfold _generate_ai_recommendations, ret.
  destruct (Nat.ltb_spec 5 (length anomalies)) as [Hgt | Hle].
  - exists (baseline_recommendations ++ [urgent_recommendation])%list.
    repeat split; try reflexivity.
    + intros _. exact Hgt.
    + intros _. simpl. auto 10.
    + simpl. auto 10.
  - exists baseline_recommendations.
    repeat split; try reflexivity.
    + intros Hin. simpl in Hin.
      repeat (destruct Hin as [Hin | Hin]; [discriminate Hin |]). contradiction.
    + intros Hgt. lia.
    + exfalso. lia.
    + exfalso. lia.
Qed.

(** C8 (where the code departs from it).  A batch without any missing value
    that carries a string column, as every batch the module builds does, is
    not returned unchanged by [_apply_data_recovery]: [data.mean()] raises
    TypeError on the strings, whatever the float64 columns hold. *)
Theorem recovery_of_valid_batch_with_strings_raises
  (p : EnterpriseDataProcessor) (w : World) :
  no_missing_values labelled_batch = true /\
  _apply_data_recovery nanmean labelled_batch p w =
    (Raise (TypeError "Could not convert to numeric"), p, w) /\
  fst (fst (_apply_data_recovery nanmean labelled_batch p w)) <> Ok labelled_batch.
Proof.
  split; [reflexivity |].
  assert (E : _apply_data_recovery nanmean labelled_batch p w =
              (Raise (TypeError "Could not convert to numeric"), p, w)) by reflexivity.
  split; [exact E |]. rewrite E. discriminate.
Qed.

(** C9.  [detect_anomalies] returns at most 10 records, whatever the number
    of rows, and the row index of each lies in [0, min(len(dataset), 10));
    it can fail to return only on a dataset without columns. *)
Theorem detect_anomalies_at_most_ten
  (data : DataFrame) (e : QuantumEnhancedAnalytics) (w : World) :
  match fst (fst (detect_anomalies data e w)) with
  | Ok anomalies =>
      (length anomalies <= 10)%nat /\
      Forall (fun a => (0 <= index a < Nat.min (index_len data) 10)%nat) anomalies
  | Raise _ => columns data = []
  end.
Proof.
  destruct (detect_anomalies_spec data e w) as [_ Hspec].
  destruct (fst (fst (detect_anomalies data e w))) as [anomalies | ex]; simpl in Hspec.
  - destruct Hspec as [Hlen Hall]. split; [exact Hlen |].
    eapply Forall_impl; [| exact Hall]. simpl. intros a [Hidx _]. lia.
  - tauto.
Qed.

(** C10.  [run_comprehensive_analysis] never writes the status: after every
    call the orchestrator is what it was before, and the call returns a
    report exactly when that status is "OPERATIONAL".  The helper methods
    of the orchestrator leave it untouched as well; of the methods, only
    [initialize_system] assigns the status. *)
Theorem run_analysis_keeps_status
  (source : string) (o : AIAnalyticsOrchestrator) (w : World) :
  (match run_comprehensive_analysis variate source o w with
   | (r, o', _) =>
       o' = o /\
       system_status o' = system_status o /\
       (returned r = true <-> system_status o' = "OPERATIONAL")
   end) /\
  snd (fst (_generate_enterprise_dataset variate o w)) = o /\
  snd (fst (_get_system_health_metrics o w)) = o /\
  snd (fst (_perform_system_health_check o w)) = o /\
  snd (fst (_load_enterprise_configurations o w)) = o /\
  (forall anomalies, snd (fst (_generate_ai_recommendations anomalies o w)) = o).
Proof.
  split.
  - destruct (run_comprehensive_analysis_spec source o w) as [Hself Hout].
    destruct (run_comprehensive_analysis variate source o w) as [[r o'] w'].
    simpl in Hself, Hout. subst o'.
    split; [reflexivity |]. split; [reflexivity |].
    unfold analysis_outcome in Hout.
    destruct (String.eqb_spec (system_status o) "OPERATIONAL") as [E | NE].
    + destruct r as [report | ex]; [| contradiction]. simpl. tauto.
    + subst r. simpl. split; [discriminate | contradiction].
  - split; [apply world_only_keeps_self, world_only_generate_enterprise_dataset |].
    split; [apply world_only_keeps_self, world_only_get_system_health_metrics |].
    split; [apply world_only_keeps_self, world_only_perform_system_health_check |].
    split; [reflexivity | intros anomalies; reflexivity].
Qed.

End Properties.

(** ** The properties at concrete inputs *)

(** A freshly constructed orchestrator is "INITIALIZING" and refuses to run. *)
Lemma run_analysis_refused_unless_operational_witness :
  system_status AIAnalyticsOrchestrator_init <> "OPERATIONAL" /\
  run_comprehensive_analysis flat_variate "enterprise_data_lake"
    AIAnalyticsOrchestrator_init (world_of []) =
  (Raise not_operational_error, AIAnalyticsOrchestrator_init, world_of []).
Proof.
  split.
  - simpl. discriminate.
  - apply run_analysis_refused_unless_operational. simpl. discriminate.
Defined.

(** In status "FAILED" the error raised is a RuntimeError: the module
    defines no SystemNotReadyError. *)
Lemma run_analysis_failed_raises_RuntimeError :
  system_status failed_orchestrator = "FAILED" /\
  fst (fst (run_comprehensive_analysis flat_variate "enterprise_data_lake"
              failed_orchestrator (world_of []))) =
    Raise (RuntimeError "System not operational - initialization required") /\
  ~ raises "SystemNotReadyError"
      (fst (fst (run_comprehensive_analysis flat_variate "enterprise_data_lake"
                   failed_orchestrator (world_of [])))).
Proof.
  split; [reflexivity |]. split; [reflexivity |].
  intros H. vm_compute in H. discriminate H.
Qed.

(** With the threshold configured to 3, a row drawn as anomalous may get the
    score 2.8125, which the threshold does not exclude. *)
Lemma detect_anomalies_score_below_threshold :
  exists a,
    fst (fst (detect_anomalies one_cell_frame (with_threshold default_engine 3)
                (world_of [draw_top; draw_eighth]))) = Ok [a] /\
    (anomaly_score a == 2.8125)%Q /\
    ~ (anomaly_detection_threshold (config (with_threshold default_engine 3))
         < anomaly_score a)%Q.
Proof.
  eexists. split; [vm_compute; reflexivity |]. split.
  - reflexivity.
  - intros H. vm_compute in H. discriminate H.
Qed.

Lemma detect_anomalies_ignores_threshold_witness :
  (2.5 <= 3)%Q /\
  let found t :=
    fst (fst (detect_anomalies one_cell_frame (with_threshold default_engine t)
                (world_of [draw_top; draw_eighth]))) in
  found 3%Q = found 2.5%Q /\
  (forall l1 l2, found 2.5%Q = Ok l1 -> found 3%Q = Ok l2 -> (length l2 <= length l1)%nat) /\
  (forall l1, found 2.5%Q = Ok l1 -> Forall (fun a => (2.5 <= anomaly_score a)%Q) l1).
Proof.
  assert (H : (2.5 <= 3)%Q) by (unfold Qle; simpl; lia).
  split; [exact H |].
  exact (detect_anomalies_ignores_threshold one_cell_frame default_engine
           (world_of [draw_top; draw_eighth]) 2.5 3 H).
Defined.



(** The two draws of a confidence row come in any order: here 1/2, then 0. *)
Lemma predict_batch_interval_reversed :
  exists predictions low high,
    fst (fst (predict_batch flat_variate [[Some 100%Q]] default_engine
                (world_of [0; 0; draw_half; 0]%N))) =
      Ok (predictions, [[low; high]]) /\
    ~ (low <= high)%Q.
Proof.
  do 3 eexists. split; [vm_compute; reflexivity |].
  intros H. vm_compute in H. apply H. reflexivity.
Qed.

(** A new engine has an empty model cache, and predicts all the same. *)
Lemma predict_batch_untrained_returns :
  model_cache default_engine = [] /\
  returned (fst (fst (predict_batch flat_variate [[Some 100%Q]] default_engine
                        (world_of [])))) = true /\
  ~ raises "ModelNotTrainedError"
      (fst (fst (predict_batch flat_variate [[Some 100%Q]] default_engine (world_of [])))).
Proof.
  split; [reflexivity |]. split; [reflexivity |].
  intros H. exact H.
Qed.

(** Training on a dataset with no row and no column returns metrics. *)
Lemma train_model_empty_dataset_returns :
  index_len empty_frame = O /\
  columns empty_frame = [] /\
  returned (fst (fst (train_model empty_frame ModelConfiguration_default default_engine
                        (world_of [])))) = true /\
  ~ raises "InvalidDatasetError"
      (fst (fst (train_model empty_frame ModelConfiguration_default default_engine
                   (world_of [])))).
Proof.
  split; [reflexivity |]. split; [reflexivity |]. split; [reflexivity |].
  intros H. exact H.
Qed.

Lemma recommendations_from_anomaly_count_witness :
  length six_anomalies = 6%nat /\
  exists advice,
    _generate_ai_recommendations six_anomalies operational_orchestrator (world_of []) =
      (Ok advice, operational_orchestrator, world_of []) /\
    length advice = 5%nat /\
    In urgent_recommendation advice.
Proof.
  split; [reflexivity |].
  destruct (recommendations_from_anomaly_count six_anomalies operational_orchestrator
              (world_of [])) as (advice & _ & Hrun & _ & _ & _ & _ & Hsix).
  exists advice. split; [exact Hrun |]. apply Hsix. reflexivity.
Defined.

(** An operational orchestrator returns a report and is left as it was. *)
Lemma run_analysis_keeps_status_witness :
  system_status operational_orchestrator = "OPERATIONAL" /\
  exists report w',
    run_comprehensive_analysis flat_variate "enterprise_data_lake"
      operational_orchestrator (world_of []) =
    (Ok report, operational_orchestrator, w').
Proof.
  split; [reflexivity |].
  generalize (world_of []). intros w.
  generalize (proj1 (run_analysis_keeps_status flat_variate "enterprise_data_lake"
                       operational_orchestrator w)).
  destruct (run_comprehensive_analysis flat_variate "enterprise_data_lake"
              operational_orchestrator w) as [[r o'] w'].
  intros (Hself & _ & Hreturned).
  destruct r as [report | ex].
  - exists report, w'. rewrite Hself. reflexivity.
  - destruct Hreturned as [_ Hreturned].
    rewrite Hself in Hreturned. specialize (Hreturned eq_refl). discriminate Hreturned.
Defined.

(** ** Further properties of the code *)

Lemma uniform_value_range (low high u : Q) :
  (low <= high)%Q -> (0 <= u)%Q -> (u < 1)%Q ->
  (low <= low + (high - low) * u)%Q /\ (low + (high - low) * u <= high)%Q.
Proof. intros H1 H2 H3. split; nra. Qed.

Lemma spec_at_uniform_range {Self : Type} (low high : Q) (s : Self) :
  (low <= high)%Q ->
  spec_at (np_random_uniform low high) s
    (ok_with (fun x => (low <= x)%Q /\ (x <= high)%Q)).
Proof.
  intros Hle. unfold np_random_uniform.
  eapply spec_at_bind_ok; [apply spec_at_random | intros u [Hu0 Hu1]].
  apply spec_at_ret. simpl. apply uniform_value_range; assumption.
Qed.

Lemma within_ranges_get (ranges : list (string * (Q * Q))) (d : list (string * Q))
  (key : string) (default : Q) :
  within_ranges ranges d ->
  In key (map fst ranges) ->
  exists low high,
    In (key, (low, high)) ranges /\
    (low <= dict_get d key default)%Q /\ (dict_get d key default <= high)%Q.
Proof.
  intros Hwithin. induction Hwithin as [| [k v] [k' [low high]] d ranges (Hk & Hlow & Hhigh) _ IH];
    simpl; intros Hin.
  - contradiction.
  - simpl in Hk, Hlow, Hhigh. subst k'.
    destruct (String.eqb_spec k key) as [-> | Hne].
    + exists low, high. split; [left; reflexivity | split; assumption].
    + destruct Hin as [Heq | Hin]; [contradiction |].
      destruct (IH Hin) as (low' & high' & Hin' & Hbounds).
      exists low', high'. split; [right; exact Hin' | exact Hbounds].
Qed.

Section Further.

Variable variate : Distribution -> N -> Q.

(** *** Training *)

Lemma train_ensemble_models_ranges (data : DataFrame) (e : QuantumEnhancedAnalytics) :
  spec_at (_train_ensemble_models data) e (ok_with (within_ranges training_metric_ranges)).
Proof.
  unfold _train_ensemble_models.
  do 7 (eapply spec_at_bind_ok; [apply spec_at_uniform_range; discriminate | intros ? ?]).
  apply spec_at_ret. cbv beta in *. unfold within_ranges, training_metric_ranges.
  repeat (constructor; [simpl; tauto |]). constructor.
Qed.

Lemma train_model_ranges (data : DataFrame) (cfg : ModelConfiguration)
  (e : QuantumEnhancedAnalytics) :
  spec_at (train_model data cfg) e (ok_with (within_ranges training_metric_ranges)).
Proof.
  apply spec_at_world_only; [apply world_only_train_model |].
  intros w. unfold train_model, _preprocess_data, _neural_architecture_search,
    _quantum_feature_engineering.
  refine (proj2 (_ w)).
  eapply spec_at_bind_ok; [apply spec_at_ret with (P := ok_with (fun _ => True)); exact I |].
  intros _ _.
  eapply spec_at_bind_ok.
  { eapply spec_at_bind_ok; [apply spec_at_randint with (low := 10%Z); lia | intros ? _].
    eapply spec_at_bind_ok; [apply spec_at_randint with (low := 128%Z); lia | intros ? _].
    eapply spec_at_bind_ok; [apply spec_at_uniform_any | intros ? _].
    apply spec_at_ret with (P := ok_with (fun _ => True)). exact I. }
  intros _ _.
  eapply spec_at_bind_ok.
  { unfold np_random_random_2d. apply spec_at_replicateM.
    apply spec_at_replicateM. apply spec_at_random. }
  intros _ _.
  eapply spec_at_bind_ok; [apply train_ensemble_models_ranges |].
  intros metrics H. apply spec_at_ret. exact H.
Qed.

(** Every metric [train_model] reports lies in the range it is drawn from:
    the five quality scores between 0.88 and 0.99, hence in [0, 1], and the
    advantage and speedup factors above 1. *)
Theorem train_model_metric_ranges
  (data : DataFrame) (cfg : ModelConfiguration) (e : QuantumEnhancedAnalytics) (w : World) :
  exists metrics w',
    train_model data cfg e w = (Ok metrics, e, w') /\
    within_ranges training_metric_ranges metrics /\
    Forall (fun kv => (0 <= snd kv)%Q /\ (snd kv <= 1)%Q) (firstn 5 metrics) /\
    Forall (fun kv => (1 <= snd kv)%Q) (skipn 5 metrics).
Proof.
  destruct (spec_at_ok_inv _ _ _ (train_model_ranges data cfg e) w)
    as (metrics & w' & Hrun & Hwithin).
  exists metrics, w'. split; [exact Hrun |]. split; [exact Hwithin |].
  unfold within_ranges, training_metric_ranges in Hwithin.
  repeat match goal with
         | H : Forall2 _ _ (_ :: _) |- _ => inversion H; clear H; subst
         | H : Forall2 _ _ [] |- _ => inversion H; clear H; subst
         end.
  simpl in *.
  split; repeat constructor;
    repeat match goal with H : _ /\ _ |- _ => destruct H end; simpl in *; lra.
Qed.

(** [train_model] looks at nothing but the number of rows: two datasets of
    the same length, under any two configurations, give the same metrics
    and leave the same world. *)
Theorem train_model_depends_on_row_count_only
  (data data' : DataFrame) (cfg cfg' : ModelConfiguration)
  (e : QuantumEnhancedAnalytics) (w : World) :
  index_len data = index_len data' ->
  train_model data cfg e w = train_model data' cfg' e w.
Proof.
  intros Hlen.
  unfold train_model, _preprocess_data, _quantum_feature_engineering,
    _train_ensemble_models.
  unfold bind at 1 5. simpl. rewrite Hlen. reflexivity.
Qed.

(** *** Prediction *)

Lemma bind_map_drop {Self A B C : Type} (m : Run Self A) (f : A -> B) (k : Run Self C)
  (s : Self) (w : World) :
  bind (bind m (fun x => ret (f x))) (fun _ => k) s w = bind m (fun _ => k) s w.
Proof.
  unfold bind, ret. destruct (m s w) as [[[a | ex] s1] w1]; reflexivity.
Qed.

(** [predict_batch] never uses the values of the features: two arrays of
    the same shape give the same predictions and intervals and leave the
    same world, NaN entries or not. *)
Theorem predict_batch_ignores_feature_values
  (features features' : list (list float)) (e : QuantumEnhancedAnalytics) (w : World) :
  shape features = shape features' ->
  predict_batch variate features e w = predict_batch variate features' e w.
Proof.
  intros Hshape.
  assert (Hlen : length features = length features')
    by (apply (f_equal fst) in Hshape; exact Hshape).
  unfold predict_batch, _quantum_transform.
  rewrite !bind_map_drop, Hshape, Hlen. reflexivity.
Qed.

Lemma predict_batch_values_spec (features : list (list float))
  (e : QuantumEnhancedAnalytics) :
  spec_at (predict_batch variate features) e
    (ok_with (fun p : list Q * list (list Q) =>
       length (fst p) = length features /\ Forall in_unit_interval (fst p))).
Proof.
  unfold predict_batch, _quantum_transform, np_random_normal_2d, np_random_random_1d,
    np_random_random_2d.
  eapply spec_at_bind_ok.
  { eapply spec_at_bind_ok.
    - apply spec_at_replicateM. apply spec_at_variates.
    - intros noise _. apply spec_at_ret with (P := ok_with (fun _ => True)). exact I. }
  intros _ _.
  eapply spec_at_bind_ok; [apply spec_at_replicateM, spec_at_random |].
  intros predictions Hpred.
  eapply spec_at_bind_ok.
  { apply spec_at_replicateM. apply spec_at_replicateM. apply spec_at_random. }
  intros intervals _.
  apply spec_at_ret. exact Hpred.
Qed.

(** Every prediction is a value in [0, 1), one per input row. *)
Theorem predict_batch_predictions_in_unit_interval
  (features : list (list float)) (e : QuantumEnhancedAnalytics) (w : World) :
  exists predictions intervals w',
    predict_batch variate features e w = (Ok (predictions, intervals), e, w') /\
    length predictions = length features /\
    Forall (fun x => (0 <= x)%Q /\ (x < 1)%Q) predictions.
Proof.
  destruct (spec_at_ok_inv _ _ _ (predict_batch_values_spec features e) w)
    as ([predictions intervals] & w' & Hrun & Hlen & Hall).
  exists predictions, intervals, w'. repeat split; assumption.
Qed.

(** *** Anomaly detection *)

Lemma take_names_within (names : list string) (picked : list nat) :
  Forall (fun i => (i < length names)%nat) picked ->
  Forall (fun name => In name names) (take_names names picked).
Proof.
  unfold take_names. induction 1 as [| i picked Hi _ IH]; simpl; constructor.
  - apply nth_In, Hi.
  - exact IH.
Qed.

Lemma detect_anomalies_step_record (data : DataFrame) (i : nat)
  (before : list AnomalyRecord) (e : QuantumEnhancedAnalytics) :
  spec_at (detect_anomalies_step data i before) e
    (fun r =>
       match r with
       | Ok after =>
           after = before \/ exists a, after = (before ++ [a])%list /\ record_of data i a
       | Raise ex => columns data = []
       end).
Proof.
  unfold detect_anomalies_step.
  eapply spec_at_bind; [apply spec_at_random | | intros ? []].
  intros r _. destruct (Qgtb r 0.95); [| apply spec_at_ret; left; reflexivity].
  eapply spec_at_bind; [apply spec_at_now | | intros ? []]. intros ts _.
  eapply spec_at_bind;
    [apply spec_at_uniform_range with (low := 2.5%Q); discriminate | | intros ? []].
  intros score [Hs1 Hs2].
  eapply spec_at_bind;
    [apply spec_at_uniform_range with (low := 0.8%Q); discriminate | | intros ? []].
  intros conf [Hc1 Hc2].
  eapply spec_at_bind; [apply spec_at_random | | intros ? []]. intros r' _.
  destruct (columns data) as [| c cols] eqn:Hcols.
  - unfold column_names. rewrite Hcols. simpl length.
    eapply spec_at_bind; [apply spec_at_choice_empty | intros ? [] |].
    intros ex _. reflexivity.
  - eapply spec_at_bind; [apply spec_at_choice | | intros ? []].
    { unfold column_names. rewrite Hcols. discriminate. }
    intros picked [Hlen Hpicked]. apply spec_at_ret. right.
    eexists. split; [reflexivity |].
    unfold record_of. simpl.
    repeat split; try assumption.
    + destruct (Qgtb r' 0.5); [left | right]; reflexivity.
    + unfold take_names. rewrite length_map. exact Hlen.
    + apply take_names_within. exact Hpicked.
Qed.

Lemma for_each_picks {Self : Type} (R : nat -> AnomalyRecord -> Prop) (F : Exception -> Prop)
  (step : nat -> list AnomalyRecord -> Run Self (list AnomalyRecord)) (s : Self)
  (idxs : list nat) :
  (forall i before,
      spec_at (step i before) s
        (fun r =>
           match r with
           | Ok after => after = before \/ exists a, after = (before ++ [a])%list /\ R i a
           | Raise ex => F ex
           end)) ->
  forall before,
    spec_at (for_each idxs step before) s
      (fun r =>
         match r with
         | Ok after => exists added, after = (before ++ added)%list /\ picked_from R idxs added
         | Raise ex => F ex
         end).
Proof.
  intros Hstep. induction idxs as [| i rest IH]; intros before; simpl.
  - apply spec_at_ret. exists []. split; [now rewrite app_nil_r | constructor].
  - eapply spec_at_bind; [apply Hstep | | intros ex H; exact H].
    intros mid Hmid. eapply spec_at_weaken; [apply IH |].
    intros [after | ex]; [| intros H; exact H].
    intros (added & -> & Hpicked).
    destruct Hmid as [-> | (a & -> & Ha)].
    + exists added. split; [reflexivity | constructor; exact Hpicked].
    + exists (a :: added). rewrite <- app_assoc. split; [reflexivity |].
      constructor; assumption.
Qed.

Lemma picked_from_all (R : nat -> AnomalyRecord -> Prop) (idxs : list nat)
  (records : list AnomalyRecord) :
  picked_from R idxs records ->
  Forall (fun a => exists i, In i idxs /\ R i a) records.
Proof.
  induction 1 as [| i idxs records _ IH | i idxs a records Ha _ IH].
  - constructor.
  - eapply Forall_impl; [| exact IH]. intros a (j & Hj & Hr). exists j. simpl. auto.
  - constructor.
    + exists i. simpl. auto.
    + eapply Forall_impl; [| exact IH]. intros b (j & Hj & Hr). exists j. simpl. auto.
Qed.

Lemma picked_from_sorted (R : nat -> AnomalyRecord -> Prop) (idxs : list nat)
  (records : list AnomalyRecord) :
  (forall i a, R i a -> index a = i) ->
  StronglySorted lt idxs ->
  picked_from R idxs records ->
  StronglySorted lt (map index records).
Proof.
  intros Hindex Hsorted Hpicked.
  induction Hpicked as [| i idxs records _ IH | i idxs a records Ha Hrest IH]; simpl.
  - constructor.
  - apply IH. inversion Hsorted; assumption.
  - inversion Hsorted as [| ? ? Htail Hhead]; subst.
    constructor; [apply IH, Htail |].
    rewrite (Hindex _ _ Ha). apply Forall_map.
    eapply Forall_impl; [| apply (picked_from_all _ _ _ Hrest)].
    intros b (j & Hj & Hb). rewrite (Hindex _ _ Hb).
    rewrite Forall_forall in Hhead. apply Hhead, Hj.
Qed.

Lemma seq_sorted (len : nat) : forall start, StronglySorted lt (seq start len).
Proof.
  induction len as [| len IH]; intros start; simpl; constructor.
  - apply IH.
  - apply Forall_forall. intros j Hj. apply in_seq in Hj. lia.
Qed.

Lemma detect_anomalies_picks (data : DataFrame) (e : QuantumEnhancedAnalytics) :
  spec_at (detect_anomalies data) e
    (fun r =>
       match r with
       | Ok anomalies =>
           picked_from (record_of data) (seq 0 (Nat.min (index_len data) 10)) anomalies
       | Raise ex => columns data = []
       end).
Proof.
  unfold detect_anomalies.
  eapply spec_at_weaken.
  - apply (for_each_picks (record_of data) (fun _ => columns data = [])).
    intros i before. apply detect_anomalies_step_record.
  - intros [anomalies | ex]; [| intros H; exact H].
    intros (added & -> & Hpicked). exact Hpicked.
Qed.

(** The records come in row order and no row is reported twice: their
    indices are strictly increasing. *)
Theorem detect_anomalies_rows_in_order
  (data : DataFrame) (e : QuantumEnhancedAnalytics) (w : World) :
  match fst (fst (detect_anomalies data e w)) with
  | Ok anomalies =>
      StronglySorted lt (map index anomalies) /\ NoDup (map index anomalies)
  | Raise _ => columns data = []
  end.
Proof.
  destruct (detect_anomalies_picks data e w) as [_ Hspec].
  destruct (fst (fst (detect_anomalies data e w))) as [anomalies | ex]; [| exact Hspec].
  assert (Hsorted : StronglySorted lt (map index anomalies)).
  { eapply picked_from_sorted; [| apply seq_sorted | exact Hspec].
    intros i a Ha. apply Ha. }
  split; [exact Hsorted |].
  clear Hspec. induction Hsorted as [| x l _ IH Hx]; constructor; [| exact IH].
  intros Hin. rewrite Forall_forall in Hx. specialize (Hx x Hin). lia.
Qed.

(** Every record names exactly three features, each a column of the dataset
    (repeats allowed), carries the risk level "HIGH" or "MEDIUM", never
    "LOW", a score between 2.5 and 5.0 and a confidence between 0.8 and
    0.99. *)
Theorem detect_anomalies_record_fields
  (data : DataFrame) (e : QuantumEnhancedAnalytics) (w : World) :
  match fst (fst (detect_anomalies data e w)) with
  | Ok anomalies =>
      Forall (fun a =>
                length (affected_features a) = 3%nat /\
                Forall (fun name => In name (column_names data)) (affected_features a) /\
                (risk_level a = "HIGH" \/ risk_level a = "MEDIUM") /\
                risk_level a <> "LOW" /\
                (2.5 <= anomaly_score a)%Q /\ (anomaly_score a <= 5.0)%Q /\
                (0.8 <= confidence a)%Q /\ (confidence a <= 0.99)%Q)
             anomalies
  | Raise _ => columns data = []
  end.
Proof.
  destruct (detect_anomalies_picks data e w) as [_ Hspec].
  destruct (fst (fst (detect_anomalies data e w))) as [anomalies | ex]; [| exact Hspec].
  eapply Forall_impl; [| apply (picked_from_all _ _ _ Hspec)].
  intros a (i & _ & _ & Hs1 & Hs2 & Hc1 & Hc2 & Hrisk & Hlen & Hnames).
  repeat split; try assumption.
  destruct Hrisk as [-> | ->]; discriminate.
Qed.

Lemma later_later (a b c d : nat) (w : World) :
  later a b (later c d w) = later (a + c) (b + d) w.
Proof. unfold later. simpl. f_equal; lia. Qed.

Lemma later_zero (w : World) : later 0 0 w = w.
Proof. destruct w. reflexivity. Qed.

Lemma detect_anomalies_step_world (data : DataFrame) (i : nat)
  (before : list AnomalyRecord) (e : QuantumEnhancedAnalytics) (w : World) :
  match detect_anomalies_step data i before e w with
  | (Ok after, _, w') =>
      (after = before /\ w' = later 1 0 w) \/
      (exists a, after = (before ++ [a])%list /\ w' = later 7 1 w)
  | (Raise _, _, _) => True
  end.
Proof.
  unfold detect_anomalies_step, np_random_uniform, np_random_random, np_random_choice,
    datetime_now_isoformat, raw_draw, bind, ret, raise, column_names.
  destruct (Qgtb (unit_float (entropy w (cursor w))) 0.95).
  - destruct (columns data) as [| c cols]; simpl; [exact I |].
    right. eexists. split; reflexivity.
  - left. split; reflexivity.
Qed.

Lemma detect_anomalies_loop_world (data : DataFrame) (idxs : list nat) :
  forall (before : list AnomalyRecord) (e : QuantumEnhancedAnalytics) (w : World),
    match for_each idxs (detect_anomalies_step data) before e w with
    | (Ok after, _, w') =>
        exists found,
          length after = (length before + found)%nat /\
          w' = later (length idxs + 6 * found) found w
    | (Raise _, _, _) => True
    end.
Proof.
  induction idxs as [| i rest IH]; intros before e w; simpl.
  - exists O. rewrite later_zero. split; [lia | reflexivity].
  - unfold bind at 1.
    pose proof (detect_anomalies_step_world data i before e w) as Hstep.
    destruct (detect_anomalies_step data i before e w) as [[[mid | ex] e1] w1]; [| exact I].
    specialize (IH mid e1 w1).
    destruct (for_each rest (detect_anomalies_step data) mid e1 w1)
      as [[[after | ex] e2] w2]; [| exact I].
    destruct IH as (found & Hlen & ->).
    destruct Hstep as [[-> ->] | (a & -> & ->)].
    + exists found. split; [exact Hlen |]. rewrite later_later. f_equal; lia.
    + exists (S found). rewrite length_app in Hlen. simpl in Hlen.
      split; [lia |]. rewrite later_later. f_equal; lia.
Qed.

(** The clock is read once for each record returned, and the generator
    yields one sample for each row examined and six more for each record:
    on an empty dataset the world is left as it was. *)
Theorem detect_anomalies_draws_and_clock_reads
  (data : DataFrame) (e : QuantumEnhancedAnalytics) (w : World) :
  match detect_anomalies data e w with
  | (Ok anomalies, _, w') =>
      w' = later (Nat.min (index_len data) 10 + 6 * length anomalies) (length anomalies) w /\
      (index_len data = O -> anomalies = [] /\ w' = w)
  | (Raise _, _, _) => columns data = []
  end.
Proof.
  pose proof (detect_anomalies_loop_world data (seq 0 (Nat.min (index_len data) 10)) [] e w)
    as Hloop.
  destruct (detect_anomalies_spec data e w) as [_ Hspec].
  unfold detect_anomalies in *.
  destruct (for_each (seq 0 (Nat.min (index_len data) 10)) (detect_anomalies_step data) [] e w)
    as [[[anomalies | ex] e1] w1]; simpl in Hspec.
  - destruct Hloop as (found & Hlen & ->). simpl in Hlen. subst found.
    rewrite length_seq. split; [reflexivity |].
    intros Hempty. destruct Hspec as [_ Hall]. rewrite Hempty in *. simpl in *.
    destruct anomalies as [| a rest].
    + split; [reflexivity | apply later_zero].
    + inversion Hall as [| ? ? [Hidx _] _]; subst. lia.
  - apply Hspec.
Qed.

(** *** The orchestrator's dataset, health metrics and report *)

Lemma forallb_map_Some (xs : list Q) : complete (map Some xs) = true.
Proof. unfold complete. induction xs as [| x xs IH]; simpl; auto. Qed.

Lemma generate_enterprise_dataset_frame (o : AIAnalyticsOrchestrator) :
  spec_at (_generate_enterprise_dataset variate) o
    (ok_with (fun df =>
       (10000 <= Z.of_nat (index_len df) < 50000)%Z /\
       column_names df = enterprise_columns /\
       Forall (fun c => length (snd c) = index_len df) (columns df) /\
       no_missing df = true)).
Proof.
  unfold _generate_enterprise_dataset, np_random_uniform_1d.
  eapply spec_at_bind_ok; [apply spec_at_randint with (low := 10000%Z); lia |].
  intros n Hn. simpl.
  do 6 (eapply spec_at_bind_ok; [apply spec_at_variates | intros ? ?]).
  eapply spec_at_bind_ok; [apply spec_at_replicateM, spec_at_uniform_any | intros ? [? _]].
  apply spec_at_ret. simpl. cbv beta in *.
  split; [lia |]. split; [reflexivity |]. split.
  - repeat constructor; simpl; rewrite length_map; assumption.
  - unfold no_missing. simpl.
    repeat rewrite (forallb_map_Some _ : forallb _ (map Some _) = true). reflexivity.
Qed.

(** The generated dataset is a well-formed frame: between 10000 and 49999
    rows, the seven named columns in order, each column as long as the
    index, and no missing value anywhere. *)
Theorem generated_dataset_well_formed (o : AIAnalyticsOrchestrator) (w : World) :
  exists df w',
    _generate_enterprise_dataset variate o w = (Ok df, o, w') /\
    (10000 <= Z.of_nat (index_len df) < 50000)%Z /\
    column_names df = enterprise_columns /\
    Forall (fun c => length (snd c) = index_len df) (columns df) /\
    no_missing df = true.
Proof. apply (spec_at_ok_inv _ _ _ (generate_enterprise_dataset_frame o) w). Qed.

Lemma get_system_health_metrics_ranges (o : AIAnalyticsOrchestrator) :
  spec_at _get_system_health_metrics o (ok_with (within_ranges health_metric_ranges)).
Proof.
  unfold _get_system_health_metrics.
  do 6 (eapply spec_at_bind_ok; [apply spec_at_uniform_range; discriminate | intros ? ?]).
  apply spec_at_ret. cbv beta in *. unfold within_ranges, health_metric_ranges.
  repeat (constructor; [simpl; tauto |]). constructor.
Qed.

(** The health snapshot has its six keys in order, each value in the range
    it is drawn from; the utilisations, the coherence and the accuracy lie
    in [0, 1]. *)
Theorem system_health_metric_ranges (o : AIAnalyticsOrchestrator) (w : World) :
  exists health w',
    _get_system_health_metrics o w = (Ok health, o, w') /\
    within_ranges health_metric_ranges health /\
    Forall (fun kv => fst kv = "network_latency_ms" \/ ((0 <= snd kv)%Q /\ (snd kv <= 1)%Q))
      health.
Proof.
  destruct (spec_at_ok_inv _ _ _ (get_system_health_metrics_ranges o) w)
    as (health & w' & Hrun & Hwithin).
  exists health, w'. split; [exact Hrun |]. split; [exact Hwithin |].
  unfold within_ranges, health_metric_ranges in Hwithin.
  repeat match goal with
         | H : Forall2 _ _ (_ :: _) |- _ => inversion H; clear H; subst
         | H : Forall2 _ _ [] |- _ => inversion H; clear H; subst
         end.
  simpl in *.
  repeat match goal with H : _ /\ _ |- _ => destruct H end.
  repeat (apply Forall_cons; [first [right; split; lra | left; assumption] |]).
  apply Forall_nil.
Qed.

Lemma training_metrics_advantage (metrics : list (string * Q)) :
  within_ranges training_metric_ranges metrics ->
  (1.15 <= dict_get metrics "quantum_advantage" 1.0)%Q /\
  (dict_get metrics "quantum_advantage" 1.0 <= 1.45)%Q.
Proof.
  intros Hwithin.
  destruct (within_ranges_get _ _ "quantum_advantage" 1.0 Hwithin)
    as (low & high & Hin & Hbounds).
  { simpl. auto 10. }
  simpl in Hin.
  repeat (destruct Hin as [Hin | Hin]; [try discriminate Hin |]); [| contradiction].
  injection Hin as <- <-. exact Hbounds.
Qed.

Lemma run_comprehensive_analysis_report (source : string) (o : AIAnalyticsOrchestrator) :
  system_status o = "OPERATIONAL" ->
  spec_at (run_comprehensive_analysis variate source) o (ok_with (report_invariants source)).
Proof.
  intros Hstatus. unfold run_comprehensive_analysis.
  eapply spec_at_bind with (P := fun r => r = Ok (system_status o));
    [apply spec_at_self_get; reflexivity | | intros ? [=]].
  intros status [= ->]. rewrite Hstatus. simpl negb. cbv iota.
  eapply spec_at_bind_ok; [apply generate_enterprise_dataset_frame |].
  intros sample_data (Hn & Hnames & _ & _).
  eapply spec_at_bind_ok; [apply spec_at_self_get with (P := ok_with (fun _ => True)); exact I |].
  intros cfg _.
  eapply spec_at_bind_ok.
  { apply spec_at_call_on; [apply set_analytics_engine_same | apply train_model_ranges]. }
  intros training_results Htrain.
  eapply spec_at_bind_ok.
  { apply spec_at_call_on; [apply set_analytics_engine_same | apply predict_batch_returns]. }
  intros prediction (Hpred & _).
  eapply spec_at_bind with (P := records_within sample_data).
  { apply spec_at_call_on; [apply set_analytics_engine_same | apply detect_anomalies_spec]. }
  2: { intros ex [Hnil _]. unfold column_names in Hnames. rewrite Hnil in Hnames.
       discriminate. }
  intros anomalies [Hcount _].
  eapply spec_at_bind_ok; [apply spec_at_now | intros now _].
  eapply spec_at_bind_ok; [apply get_system_health_metrics_ranges | intros health Hhealth].
  unfold _generate_ai_recommendations.
  eapply spec_at_bind_ok with
    (P := fun advice =>
            advice = (baseline_recommendations ++
                      (if (5 <? length anomalies)%nat then [urgent_recommendation] else []))%list).
  { apply spec_at_ret. simpl.
    destruct (5 <? length anomalies)%nat; reflexivity. }
  intros advice Hadvice.
  eapply spec_at_bind_ok;
    [apply spec_at_uniform_range with (low := 0.85%Q); discriminate | intros efficiency Heff].
  apply spec_at_ret. unfold ok_with, report_invariants. simpl.
  unfold numeric_values in Hpred. rewrite rows_of_length in Hpred.
  destruct (training_metrics_advantage _ Htrain) as [Hadv1 Hadv2].
  destruct Heff as [Heff1 Heff2].
  repeat split; try assumption; lia.
Qed.

(** On an operational orchestrator a run returns a report that echoes the
    data source, counts between 10000 and 49999 samples and as many
    predictions, at most 10 anomalies, the baseline recommendations with the
    urgent one exactly when more than 5 anomalies were found, metrics in
    their ranges, and as advantage factor the trained "quantum_advantage"
    (never the default 1.0), between 1.15 and 1.45. *)
Theorem analysis_report_invariants
  (source : string) (o : AIAnalyticsOrchestrator) (w : World) :
  system_status o = "OPERATIONAL" ->
  exists report w',
    run_comprehensive_analysis variate source o w = (Ok report, o, w') /\
    report_invariants source report.
Proof.
  intros Hstatus.
  apply (spec_at_ok_inv _ _ _ (run_comprehensive_analysis_report source o Hstatus) w).
Qed.

End Further.

(** *** Batch processing *)

Lemma Qgtb_true_iff (x y : Q) : Qgtb x y = true <-> (y < x)%Q.
Proof.
  unfold Qgtb. rewrite negb_true_iff. split.
  - intros H. apply Qnot_le_lt. intros Hle. apply Qle_bool_iff in Hle. congruence.
  - intros H. destruct (Qle_bool x y) eqn:E; [| reflexivity].
    apply Qle_bool_iff in E. exfalso. apply (Qlt_not_le _ _ H E).
Qed.

Lemma fill_columns_shape (n : nat) (cols : list (string * Column)) :
  forall values, batch_shape (mkBatch n (fill_columns cols values)) = batch_shape (mkBatch n cols).
Proof.
  unfold batch_shape. simpl.
  induction cols as [| [name c] cols IH]; intros [| [key value] values]; simpl;
    try reflexivity.
  specialize (IH values). injection IH as IH. rewrite IH.
  destruct c as [cells | strings]; simpl; [rewrite length_map |]; reflexivity.
Qed.

Section BatchProcessing.

Variable nanmean : list double -> double.

Lemma column_means_failure (cols : list (string * Column)) :
  match column_means nanmean cols with
  | Ok _ => True
  | Raise e => exc_class e = "TypeError"
  end.
Proof.
  induction cols as [| [name [cells | [| x strings]]] cols IH]; simpl; try exact I;
    try (destruct (column_means nanmean cols); [exact I | exact IH]).
  reflexivity.
Qed.

(** Recovery acts on the batch alone: it leaves processor and world as they
    are, and either returns a batch of the same shape or raises TypeError,
    the latter only on a batch that is not all float64. *)
Lemma recovery_outcome (batch : Batch) (p : EnterpriseDataProcessor) (w : World) :
  exists r,
    _apply_data_recovery nanmean batch p w = (r, p, w) /\
    match r with
    | Ok recovered => batch_shape recovered = batch_shape batch
    | Raise e => exc_class e = "TypeError" /\ all_float64 batch = false
    end.
Proof.
  unfold _apply_data_recovery, bind, from_result, ret, frame_mean.
  pose proof (column_means_failure (batch_columns batch)) as Hfail.
  pose proof (column_means_float64 nanmean (batch_columns batch)) as Hfloat.
  fold (all_float64 batch) in Hfloat.
  destruct (column_means nanmean (batch_columns batch)) as [values | e]; eexists;
    (split; [reflexivity |]).
  - destruct batch as [n cols]. apply fill_columns_shape.
  - split; [exact Hfail |].
    destruct (all_float64 batch); [discriminate (Hfloat eq_refl) | reflexivity].
Qed.

Lemma process_batch_by_draw (batch : Batch) (p : EnterpriseDataProcessor) (w : World) :
  _process_batch_enterprise nanmean batch p w =
  if Qgtb (unit_float (entropy w (cursor w))) 0.05 then (Ok batch, p, advance w)
  else _apply_data_recovery nanmean batch p (advance w).
Proof.
  unfold _process_batch_enterprise, _validate_data_integrity, np_random_random,
    _encrypt_sensitive_data, _apply_business_rules, raw_draw.
  unfold bind at 1 2 3. unfold ret at 1 2. cbv beta iota.
  destruct (Qgtb (unit_float (entropy w (cursor w))) 0.05); simpl negb; cbv iota.
  - reflexivity.
  - unfold bind, ret.
    destruct (_apply_data_recovery nanmean batch p (advance w)) as [[[b | e] p'] w'];
      reflexivity.
Qed.

Lemma process_batch_passed (batch : Batch) (p : EnterpriseDataProcessor) (w : World) :
  (0.05 < unit_float (entropy w (cursor w)))%Q ->
  _process_batch_enterprise nanmean batch p w = (Ok batch, p, advance w).
Proof.
  intros H. rewrite process_batch_by_draw.
  apply Qgtb_true_iff in H. rewrite H. reflexivity.
Qed.

Lemma process_batch_failed (batch : Batch) (p : EnterpriseDataProcessor) (w : World) :
  (unit_float (entropy w (cursor w)) <= 0.05)%Q ->
  _process_batch_enterprise nanmean batch p w =
    _apply_data_recovery nanmean batch p (advance w).
Proof.
  intros H. rewrite process_batch_by_draw.
  destruct (Qgtb (unit_float (entropy w (cursor w))) 0.05) eqn:E; [| reflexivity].
  apply Qgtb_true_iff in E. exfalso. apply (Qlt_not_le _ _ E H).
Qed.

(** Whether a batch is repaired is decided by the validation draw alone,
    never by its content: when the draw exceeds 0.05 the batch comes back
    as it was, missing values included; otherwise the outcome is that of
    [_apply_data_recovery] on the batch.  Either way one sample is drawn. *)
Theorem process_batch_repairs_by_draw_only
  (batch : Batch) (p : EnterpriseDataProcessor) (w : World) :
  ((0.05 < unit_float (entropy w (cursor w)))%Q ->
   _process_batch_enterprise nanmean batch p w = (Ok batch, p, advance w)) /\
  ((unit_float (entropy w (cursor w)) <= 0.05)%Q ->
   _process_batch_enterprise nanmean batch p w =
     _apply_data_recovery nanmean batch p (advance w)).
Proof.
  split; [apply process_batch_passed | apply process_batch_failed].
Qed.

Lemma recovered_columns_same (cols : list (string * Column)) :
  forallb (fun c => match snd c with Float64 _ => true | Object _ => false end) cols = true ->
  forallb (fun c => match snd c with
                    | Float64 cells => complete_cells cells
                    | Object _ => true
                    end) cols = true ->
  map (fun c => (fst c, fill_column (fill_value nanmean (snd c)) (snd c))) cols = cols.
Proof.
  induction cols as [| [name [cells | strings]] cols IH]; simpl; intros Hfloat Hvalid.
  - reflexivity.
  - apply andb_true_iff in Hvalid. destruct Hvalid as [Hcells Hcols].
    rewrite (fill_cell_complete _ _ Hcells), (IH Hfloat Hcols). reflexivity.
  - discriminate.
Qed.

(** A batch of float64 columns without missing value is returned unchanged
    by [_apply_data_recovery]. *)
Theorem recovery_keeps_valid_float64_batch
  (batch : Batch) (p : EnterpriseDataProcessor) (w : World) :
  all_float64 batch = true ->
  no_missing_values batch = true ->
  _apply_data_recovery nanmean batch p w = (Ok batch, p, w).
Proof.
  intros Hfloat Hvalid. rewrite (recovery_of_float64_batch nanmean batch p w Hfloat).
  rewrite (recovered_columns_same _ Hfloat Hvalid). destruct batch. reflexivity.
Qed.

(** A batch of float64 columns without missing value passes through the
    processing of a batch unchanged, whatever the validation draw. *)
Theorem process_batch_keeps_valid_batch
  (batch : Batch) (p : EnterpriseDataProcessor) (w : World) :
  all_float64 batch = true ->
  no_missing_values batch = true ->
  _process_batch_enterprise nanmean batch p w = (Ok batch, p, advance w).
Proof.
  intros Hfloat Hvalid. rewrite process_batch_by_draw.
  rewrite (recovery_of_float64_batch nanmean batch p (advance w) Hfloat).
  rewrite (recovered_columns_same _ Hfloat Hvalid).
  destruct batch. destruct (Qgtb (unit_float (entropy w (cursor w))) 0.05); reflexivity.
Qed.

(** On a batch that carries strings, as every batch the module builds does,
    recovery raises TypeError; so does the processing of the batch whenever
    the validation draw is at most 0.05, with the processor unchanged. *)
Theorem process_batch_with_strings_raises
  (batch : Batch) (p : EnterpriseDataProcessor) (w : World) :
  has_strings batch = true ->
  raises "TypeError" (fst (fst (_apply_data_recovery nanmean batch p w))) /\
  ((unit_float (entropy w (cursor w)) <= 0.05)%Q ->
   exists e,
     _process_batch_enterprise nanmean batch p w = (Raise e, p, advance w) /\
     exc_class e = "TypeError").
Proof.
  intros Hstrings. split.
  - destruct (recovery_of_strings nanmean batch p w Hstrings) as (e & -> & He). exact He.
  - intros Hdraw.
    rewrite (process_batch_failed batch p w Hdraw).
    apply recovery_of_strings, Hstrings.
Qed.

(** The processing of a batch never changes its shape: whenever it returns,
    the length, the column names, the dtypes and the number of cells of
    every column are those of the input.  It fails to return only with a
    TypeError, on a batch that is not all float64; the processor is
    unchanged either way. *)
Theorem process_batch_keeps_shape
  (batch : Batch) (p : EnterpriseDataProcessor) (w : World) :
  match _process_batch_enterprise nanmean batch p w with
  | (Ok processed, p', _) => p' = p /\ batch_shape processed = batch_shape batch
  | (Raise e, p', _) => p' = p /\ exc_class e = "TypeError" /\ all_float64 batch = false
  end.
Proof.
  rewrite process_batch_by_draw.
  destruct (Qgtb (unit_float (entropy w (cursor w))) 0.05).
  - split; reflexivity.
  - destruct (recovery_outcome batch p (advance w)) as (r & -> & Hr).
    destruct r as [recovered | e]; [split; [reflexivity | exact Hr] |].
    split; [reflexivity | exact Hr].
Qed.

(** *** Recovery *)

(** On a batch of float64 columns, recovery leaves a column whose mean is
    NaN (no valid value, or a sum that is NaN) as it was, and returns every
    other column without any missing value. *)
Theorem recovery_completes_columns
  (batch : Batch) (p : EnterpriseDataProcessor) (w : World) :
  all_float64 batch = true ->
  exists recovered,
    _apply_data_recovery nanmean batch p w = (Ok recovered, p, w) /\
    Forall2 (fun c c' =>
               exists cells cells',
                 snd c = Float64 cells /\ snd c' = Float64 cells' /\
                 (if is_nan (series_mean nanmean cells) then cells' = cells
                  else complete_cells cells' = true))
            (batch_columns batch) (batch_columns recovered).
Proof.
  intros Hfloat. eexists. split; [apply recovery_of_float64_batch, Hfloat |]. simpl.
  unfold all_float64 in Hfloat.
  induction (batch_columns batch) as [| [name [cells | strings]] cols IH]; simpl in *.
  - constructor.
  - constructor; [| apply IH, Hfloat]. simpl.
    exists cells, (map (fill_cell (series_mean nanmean cells)) cells).
    split; [reflexivity |]. split; [reflexivity |].
    destruct (series_mean_nan_or_complete nanmean cells) as [[-> H] | [-> H]]; exact H.
  - discriminate.
Qed.

Lemma recovered_columns_float64 (cols : list (string * Column)) :
  forallb (fun c => match snd c with Float64 _ => true | Object _ => false end) cols = true ->
  forallb (fun c => match snd c with Float64 _ => true | Object _ => false end)
    (map (fun c => (fst c, fill_column (fill_value nanmean (snd c)) (snd c))) cols) = true.
Proof.
  induction cols as [| [name [cells | strings]] cols IH]; simpl; intros H;
    [reflexivity | apply IH, H | discriminate].
Qed.

Lemma recovered_columns_twice (cols : list (string * Column)) :
  forallb (fun c => match snd c with Float64 _ => true | Object _ => false end) cols = true ->
  map (fun c => (fst c, fill_column (fill_value nanmean (snd c)) (snd c)))
    (map (fun c => (fst c, fill_column (fill_value nanmean (snd c)) (snd c))) cols) =
  map (fun c => (fst c, fill_column (fill_value nanmean (snd c)) (snd c))) cols.
Proof.
  induction cols as [| [name [cells | strings]] cols IH]; simpl; intros H.
  - reflexivity.
  - rewrite (IH H). do 3 f_equal. apply (fill_cell_twice nanmean cells).
  - discriminate.
Qed.

(** Recovery is idempotent on batches of float64 columns: recovering the
    batch it returned returns that batch unchanged. *)
Theorem recovery_idempotent
  (batch : Batch) (p : EnterpriseDataProcessor) (w : World) :
  all_float64 batch = true ->
  exists once,
    _apply_data_recovery nanmean batch p w = (Ok once, p, w) /\
    _apply_data_recovery nanmean once p w = (Ok once, p, w).
Proof.
  intros Hfloat. eexists. split; [apply recovery_of_float64_batch, Hfloat |].
  destruct batch as [n cols]. unfold all_float64 in Hfloat. simpl in *.
  rewrite recovery_of_float64_batch
    by (unfold all_float64; simpl; apply recovered_columns_float64, Hfloat).
  simpl. rewrite (recovered_columns_twice cols Hfloat). reflexivity.
Qed.

End BatchProcessing.

(** *** The life cycle of the orchestrator *)

(** [initialize_system] never succeeds: whatever the orchestrator and the
    world, it returns False and sets the status to "FAILED", an operational
    status included; nothing else changes, no sample is drawn, and a second
    call changes nothing more. *)
Theorem initialize_system_never_succeeds (o : AIAnalyticsOrchestrator) (w : World) :
  exists o',
    initialize_system o w = (Ok false, o', w) /\
    system_status o' = "FAILED" /\
    model_config o' = model_config o /\
    pipeline_config o' = pipeline_config o /\
    analytics_engine o' = analytics_engine o /\
    data_processor o' = data_processor o /\
    initialize_system o' w = (Ok false, o', w).
Proof.
  exists (set_system_status "FAILED" o).
  rewrite !initialize_system_fails. repeat split.
Qed.

Lemma run_refused (variate : Distribution -> N -> Q) (source : string)
  (o : AIAnalyticsOrchestrator) (w : World) :
  String.eqb (system_status o) "OPERATIONAL" = false ->
  run_comprehensive_analysis variate source o w = (Raise not_operational_error, o, w).
Proof.
  intros H. unfold run_comprehensive_analysis, bind, self_get, raise.
  rewrite H. reflexivity.
Qed.

(** Starting from the constructor, no sequence of calls to
    [initialize_system] and [run_comprehensive_analysis] makes the
    orchestrator operational: its status stays "INITIALIZING" or "FAILED",
    its engine keeps an empty model cache, and every analysis run is refused
    with the RuntimeError of the readiness guard. *)
Theorem reachable_never_operational (o : AIAnalyticsOrchestrator) :
  reachable o ->
  (system_status o = "INITIALIZING" \/ system_status o = "FAILED") /\
  model_cache (analytics_engine o) = [] /\
  config (analytics_engine o) = model_config o /\
  forall variate source w,
    run_comprehensive_analysis variate source o w = (Raise not_operational_error, o, w).
Proof.
  intros Hreach.
  assert (Hinv : (system_status o = "INITIALIZING" \/ system_status o = "FAILED") /\
                 model_cache (analytics_engine o) = [] /\
                 config (analytics_engine o) = model_config o).
  { induction Hreach as [| o w _ IH | variate source o w _ IH].
    - repeat split. left. reflexivity.
    - rewrite initialize_system_fails. simpl.
      destruct IH as (_ & Hcache & Hconfig). repeat split; auto.
    - destruct (run_comprehensive_analysis_spec variate source o w) as [Hself _].
      rewrite Hself. exact IH. }
  destruct Hinv as (Hstatus & Hcache & Hconfig).
  repeat split; try assumption.
  intros variate source w. apply run_refused.
  destruct Hstatus as [-> | ->]; reflexivity.
Qed.

(** *** The steps inside training and prediction *)

Section Steps.

Variable variate : Distribution -> N -> Q.

(** The architecture found has between 10 and 49 layers, between 128 and
    1023 neurons per layer, a dropout rate between 0.1 and 0.3, and the
    three fixed activation functions. *)
Theorem neural_architecture_search_ranges (e : QuantumEnhancedAnalytics) (w : World) :
  exists architecture w',
    _neural_architecture_search e w = (Ok architecture, e, w') /\
    (10 <= layers architecture < 50)%Z /\
    (128 <= neurons_per_layer architecture < 1024)%Z /\
    (0.1 <= dropout_rate architecture)%Q /\ (dropout_rate architecture <= 0.3)%Q /\
    activation_functions architecture = ["relu"; "gelu"; "swish"].
Proof.
  apply spec_at_ok_inv with
    (P := fun a => (10 <= layers a < 50)%Z /\ (128 <= neurons_per_layer a < 1024)%Z /\
                   (0.1 <= dropout_rate a)%Q /\ (dropout_rate a <= 0.3)%Q /\
                   activation_functions a = ["relu"; "gelu"; "swish"]).
  unfold _neural_architecture_search.
  eapply spec_at_bind_ok; [apply spec_at_randint with (low := 10%Z); lia | intros n Hn].
  eapply spec_at_bind_ok; [apply spec_at_randint with (low := 128%Z); lia | intros m Hm].
  eapply spec_at_bind_ok;
    [apply spec_at_uniform_range with (low := 0.1%Q); discriminate | intros d [Hd1 Hd2]].
  apply spec_at_ret. simpl. cbv beta in *. repeat split; try assumption; lia.
Qed.

(** The engineered features form a matrix with one row per row of the
    dataset and 50 columns, every entry in [0, 1). *)
Theorem quantum_feature_engineering_shape
  (data : DataFrame) (e : QuantumEnhancedAnalytics) (w : World) :
  exists quantum_features w',
    _quantum_feature_engineering data e w = (Ok quantum_features, e, w') /\
    length quantum_features = index_len data /\
    Forall (fun row => length row = 50%nat /\ Forall in_unit_interval row) quantum_features.
Proof.
  apply spec_at_ok_inv with
    (P := fun m => length m = index_len data /\
                   Forall (fun row => length row = 50%nat /\ Forall in_unit_interval row) m).
  unfold _quantum_feature_engineering, np_random_random_2d.
  apply spec_at_replicateM. apply spec_at_replicateM. apply spec_at_random.
Qed.

Lemma add_rows_nan (a : list float) :
  forall b : list Q,
    length b = length a ->
    Forall2 (fun x x' => x = None <-> x' = None) a (add_rows a b).
Proof.
  induction a as [| x a IH]; intros [| y b] Hlen; simpl in *; try discriminate.
  - constructor.
  - constructor; [| apply IH; lia].
    destruct x; simpl; split; intros H; try discriminate; reflexivity.
Qed.

Lemma add_arrays_nan (cols : nat) (a : list (list float)) :
  forall b : list (list Q),
    length b = length a ->
    Forall (fun r => length r = cols) a ->
    Forall (fun n => length n = cols) b ->
    Forall2 (fun r r' => Forall2 (fun x x' => x = None <-> x' = None) r r')
      a (add_arrays a b).
Proof.
  induction a as [| r a IH]; intros [| n b] Hlen Ha Hb; simpl in *; try discriminate.
  - constructor.
  - inversion Ha; subst. inversion Hb; subst.
    constructor; [apply add_rows_nan; congruence | apply IH; auto].
Qed.

(** On a rectangular array the transformation returns an array of the same
    shape, in which exactly the NaN entries of the input are NaN. *)
Theorem quantum_transform_keeps_shape
  (features : list (list float)) (e : QuantumEnhancedAnalytics) (w : World) :
  Forall (fun r => length r = snd (shape features)) features ->
  exists transformed w',
    _quantum_transform variate features e w = (Ok transformed, e, w') /\
    Forall2 (fun r r' => Forall2 (fun x x' => x = None <-> x' = None) r r')
      features transformed.
Proof.
  intros Hrect.
  apply spec_at_ok_inv with
    (P := fun t => Forall2 (fun r r' => Forall2 (fun x x' => x = None <-> x' = None) r r')
                     features t).
  unfold _quantum_transform, np_random_normal_2d.
  eapply spec_at_bind_ok.
  { apply spec_at_replicateM. apply spec_at_variates. }
  intros noise [Hlen Hrows]. apply spec_at_ret. simpl.
  apply add_arrays_nan with (cols := snd (shape features)); assumption.
Qed.

End Steps.

Lemma quantum_transform_keeps_shape_witness :
  Forall (fun r : list float => length r = snd (shape [[Some 1%Q; None]])) [[Some 1%Q; None]] /\
  exists transformed w',
    _quantum_transform flat_variate [[Some 1%Q; None]] default_engine (world_of []) =
      (Ok transformed, default_engine, w') /\
    Forall2 (fun r r' => Forall2 (fun x x' : float => x = None <-> x' = None) r r')
      [[Some 1%Q; None]] transformed.
Proof.
  assert (H : Forall (fun r : list float => length r = snd (shape [[Some 1%Q; None]]))
                [[Some 1%Q; None]]) by (repeat constructor).
  split; [exact H |].
  apply (quantum_transform_keeps_shape flat_variate _ default_engine (world_of []) H).
Defined.

(** *** The further properties at concrete inputs *)

Lemma train_model_depends_on_row_count_only_witness :
  index_len one_cell_frame = index_len (mkDataFrame 1 []) /\
  train_model one_cell_frame ModelConfiguration_default default_engine (world_of [draw_half]) =
  train_model (mkDataFrame 1 [])
    (with_anomaly_detection_threshold ModelConfiguration_default 3)
    default_engine (world_of [draw_half]).
Proof.
  split; [reflexivity |].
  apply train_model_depends_on_row_count_only. reflexivity.
Defined.

Lemma predict_batch_ignores_feature_values_witness :
  shape [[Some 100%Q]] = shape [[None]] /\
  predict_batch flat_variate [[Some 100%Q]] default_engine (world_of [draw_half]) =
  predict_batch flat_variate [[None]] default_engine (world_of [draw_half]).
Proof.
  split; [reflexivity |].
  apply predict_batch_ignores_feature_values. reflexivity.
Defined.

Lemma detect_anomalies_draws_and_clock_reads_witness :
  index_len (mkDataFrame 0 [("sensor_value_1", [])]) = O /\
  snd (detect_anomalies (mkDataFrame 0 [("sensor_value_1", [])]) default_engine
         (world_of [draw_top])) =
    world_of [draw_top].
Proof.
  split; [reflexivity |].
  pose proof (detect_anomalies_draws_and_clock_reads
                (mkDataFrame 0 [("sensor_value_1", [])]) default_engine
                (world_of [draw_top])) as H.
  destruct (detect_anomalies (mkDataFrame 0 [("sensor_value_1", [])]) default_engine
              (world_of [draw_top]))
    as [[[anomalies | ex] e] w'].
  - destruct H as [_ H]. destruct (H eq_refl) as [_ ->]. reflexivity.
  - discriminate H.
Defined.

Lemma analysis_report_invariants_witness :
  system_status operational_orchestrator = "OPERATIONAL" /\
  exists report w',
    run_comprehensive_analysis flat_variate "enterprise_data_lake"
      operational_orchestrator (world_of []) =
      (Ok report, operational_orchestrator, w') /\
    report_invariants "enterprise_data_lake" report.
Proof.
  split; [reflexivity |].
  apply analysis_report_invariants. reflexivity.
Defined.

(** With the draw 1/2 the validation passes and the gaps of the batch stay. *)
Lemma process_batch_repairs_by_draw_only_witness :
  (0.05 < unit_float (entropy (world_of [draw_half]) (cursor (world_of [draw_half]))))%Q /\
  no_missing_values holed_batch = false /\
  _process_batch_enterprise exact_mean holed_batch default_processor (world_of [draw_half]) =
    (Ok holed_batch, default_processor, advance (world_of [draw_half])).
Proof.
  assert (H : (0.05 < unit_float (entropy (world_of [draw_half])
                                    (cursor (world_of [draw_half]))))%Q) by reflexivity.
  split; [exact H |]. split; [reflexivity |].
  apply (proj1 (process_batch_repairs_by_draw_only exact_mean holed_batch default_processor
                  (world_of [draw_half])) H).
Defined.

Lemma recovery_keeps_valid_float64_batch_witness :
  all_float64 full_batch = true /\
  no_missing_values full_batch = true /\
  _apply_data_recovery exact_mean full_batch default_processor (world_of []) =
    (Ok full_batch, default_processor, world_of []).
Proof.
  split; [reflexivity |]. split; [reflexivity |].
  apply recovery_keeps_valid_float64_batch; reflexivity.
Defined.

Lemma process_batch_keeps_valid_batch_witness :
  all_float64 full_batch = true /\
  no_missing_values full_batch = true /\
  _process_batch_enterprise exact_mean full_batch default_processor (world_of []) =
    (Ok full_batch, default_processor, advance (world_of [])).
Proof.
  split; [reflexivity |]. split; [reflexivity |].
  apply process_batch_keeps_valid_batch; reflexivity.
Defined.

(** With the draw 0 the validation fails and the strings stop the recovery. *)
Lemma process_batch_with_strings_raises_witness :
  has_strings labelled_batch = true /\
  (unit_float (entropy (world_of []) (cursor (world_of []))) <= 0.05)%Q /\
  exists e,
    _process_batch_enterprise exact_mean labelled_batch default_processor (world_of []) =
      (Raise e, default_processor, advance (world_of [])) /\
    exc_class e = "TypeError".
Proof.
  assert (H : (unit_float (entropy (world_of []) (cursor (world_of []))) <= 0.05)%Q)
    by discriminate.
  split; [reflexivity |]. split; [exact H |].
  apply (proj2 (process_batch_with_strings_raises exact_mean labelled_batch
                  default_processor (world_of []) eq_refl) H).
Defined.

Lemma recovery_completes_columns_witness :
  all_float64 holed_batch = true /\
  exists recovered,
    _apply_data_recovery exact_mean holed_batch default_processor (world_of []) =
      (Ok recovered, default_processor, world_of []) /\
    no_missing_values recovered = true.
Proof.
  split; [reflexivity |].
  destruct (recovery_completes_columns exact_mean holed_batch default_processor
              (world_of []) eq_refl) as (recovered & Hrun & _).
  exists recovered. split; [exact Hrun |].
  assert (E : fst (fst (_apply_data_recovery exact_mean holed_batch default_processor
                          (world_of []))) = Ok recovered) by (rewrite Hrun; reflexivity).
  vm_compute in E. injection E as <-. reflexivity.
Defined.

Lemma recovery_idempotent_witness :
  all_float64 gappy_batch = true /\
  exists once,
    _apply_data_recovery exact_mean gappy_batch default_processor (world_of []) =
      (Ok once, default_processor, world_of []) /\
    _apply_data_recovery exact_mean once default_processor (world_of []) =
      (Ok once, default_processor, world_of []).
Proof.
  split; [reflexivity |].
  apply recovery_idempotent. reflexivity.
Defined.

(** Constructed, initialised, run and initialised again: still refused. *)
Lemma reachable_never_operational_witness :
  reachable (snd (fst (initialize_system AIAnalyticsOrchestrator_init (world_of [])))) /\
  run_comprehensive_analysis flat_variate "enterprise_data_lake"
    (snd (fst (initialize_system AIAnalyticsOrchestrator_init (world_of []))))
    (world_of []) =
  (Raise not_operational_error,
   snd (fst (initialize_system AIAnalyticsOrchestrator_init (world_of []))),
   world_of []).
Proof.
  assert (H : reachable (snd (fst (initialize_system AIAnalyticsOrchestrator_init
                                     (world_of [])))))
    by (apply reach_initialize, reach_constructed).
  split; [exact H |].
  apply (reachable_never_operational _ H).
Defined.
